(** * OS Transform: the grid-reference codec and the bounds check

    A shallow embedding of [src/server/transform.js] (class [OSTransform]):
    [_checkBounds], [_validateGridRef], [toLatLng], [fromLatLng],
    [toGridRef], [fromGridRef] and [gridRefToLatLng], followed by the
    properties of the specification that concern them.

    Modelling conventions.
    - A JavaScript string is the list of its code units, [list ascii]: the
      texts whose code units are below 256.  On these [toUpperCase] maps
      a..z and the lower-case letters of Latin-1 to their capitals and the
      sharp s (code unit 223) to the two letters SS, and [trim] removes
      TAB, LF, VT, FF, CR, SPACE and the no-break space (code unit 160).
    - A JavaScript number is an exact real of the form [a + b * sqrt 10]
      with [a] and [b] rational, or [NaN]; infinities and the rounding of
      binary floating point are not modelled.  The part [b * sqrt 10] is
      there because [fromGridRef] raises 10 to a half-integer power when
      the digit count of its reference is odd.  [NaN] is what an absent
      field or a non-numeric value becomes in arithmetic.
    - An object literal [{ea, no}] or [{lat, lng}] is a record of optional
      fields; [hasOwnProperty] asks whether the field is present.
    - A method returns [{}] ([EmptyObject]) or a populated object; a
      [TypeError] raised by reading a property of [undefined] is a
      [Throw] completion.  What a method writes to the console is not
      part of its result and is left out. *)

From Stdlib Require Import ZArith QArith Qround Qabs String Ascii Bool Lia Lqa List.
Import ListNotations.

Local Open Scope Z_scope.

(** ** The fragment of JavaScript the class relies on *)
Module JS.

(** Strings. *)
Definition jsstring : Type := list ascii.

Definition lit (s : string) : jsstring := list_ascii_of_string s.

Definition code (c : ascii) : nat := nat_of_ascii c.

Definition is_digit (c : ascii) : bool :=
  (48 <=? code c)%nat && (code c <=? 57)%nat.

(** The letters whose capital is 32 code units below them: a..z, and in
    Latin-1 the letters 224..254 but for the division sign 247. *)
Definition is_lower (c : ascii) : bool :=
  ((97 <=? code c)%nat && (code c <=? 122)%nat)
  || ((224 <=? code c)%nat && (code c <=? 254)%nat
      && negb (code c =? 247)%nat).

(** [String.prototype.trim] strips white space and line terminators from
    both ends: below 256 these are TAB, LF, VT, FF, CR, SPACE and the
    no-break space. *)
Definition is_blank (c : ascii) : bool :=
  ((9 <=? code c)%nat && (code c <=? 13)%nat) || (code c =? 32)%nat
  || (code c =? 160)%nat.

Definition upper_char (c : ascii) : ascii :=
  if is_lower c then ascii_of_nat (code c - 32) else c.

(** The sharp s, code unit 223. *)
Definition sharp_s : ascii := "223"%char.

(** The code units [toUpperCase] puts in place of one code unit: the sharp
    s becomes SS.  The capitals of the micro sign (181) and of y with
    diaeresis (255) are U+039C and U+0178, which no [ascii] holds; the two
    are left as they are, being like their capitals neither a space, nor a
    blank, nor a character of any class of the grid-reference pattern. *)
Definition upper_units (c : ascii) : jsstring :=
  if (code c =? 223)%nat then lit "SS" else [upper_char c].

Definition toUpperCase (s : jsstring) : jsstring := flat_map upper_units s.

Fixpoint trimStart (s : jsstring) : jsstring :=
  match s with
  | c :: t => if is_blank c then trimStart t else s
  | [] => []
  end.

Definition trimEnd (s : jsstring) : jsstring := rev (trimStart (rev s)).

Definition trim (s : jsstring) : jsstring := trimEnd (trimStart s).

(** [s.replace(/ /g, '')]. *)
Definition remove_spaces (s : jsstring) : jsstring :=
  filter (fun c => negb (Ascii.eqb c " ")) s.

(** [s.padStart(n, '0')]. *)
Definition padStart (n : nat) (fill : ascii) (s : jsstring) : jsstring :=
  repeat fill (n - length s) ++ s.

(** [s.substring(a, b)]: both ends are clamped to the string, and swapped
    when they come in the wrong order. *)
Definition clamp (n : nat) (z : Z) : nat := Nat.min n (Z.to_nat z).

Definition substring (s : jsstring) (a b : Z) : jsstring :=
  let a' := clamp (length s) a in
  let b' := clamp (length s) b in
  let lo := Nat.min a' b' in
  let hi := Nat.max a' b' in
  firstn (hi - lo) (skipn lo s).

(** [s.substring(a)]. *)
Definition substring_from (s : jsstring) (a : Z) : jsstring :=
  substring s a (Z.of_nat (length s)).

(** [s[k]]: a one-character string, or [undefined]. *)
Definition charAt (s : jsstring) (k : nat) : option ascii := nth_error s k.

Fixpoint index_of (c : ascii) (s : jsstring) (k : Z) : Z :=
  match s with
  | [] => -1
  | d :: t => if Ascii.eqb c d then k else index_of c t (k + 1)
  end.

(** [s.indexOf(ch)] for [ch] a character of a string; [undefined] is
    searched as the text "undefined", which no alphabet of letters holds
    as one character. *)
Definition indexOf (s : jsstring) (ch : option ascii) : Z :=
  match ch with
  | Some c => index_of c s 0
  | None => -1
  end.

(** Decimal digits. *)
Definition digit_value (c : ascii) : Z := Z.of_nat (code c) - 48.

Definition digit_char (d : Z) : ascii := ascii_of_nat (48 + Z.to_nat d).

(** [ToNumber] on a string of decimal digits, which is what the
    multiplication [ref.substring(..) * m] applies to a digit group
    (leading zeros count for nothing; the empty string is 0). *)
Definition ToNumber (s : jsstring) : Z :=
  fold_left (fun acc c => 10 * acc + digit_value c) s 0.

Fixpoint decimal (fuel : nat) (n : Z) : jsstring :=
  match fuel with
  | O => []
  | S fuel' =>
      if n <? 10 then [digit_char n]
      else decimal fuel' (n / 10) ++ [digit_char (n mod 10)]
  end.

(** Numbers: [Num q] is the rational [q], [Root10 a b] the real
    [a + b * sqrt 10]. *)
Inductive number : Type :=
| Num (q : Q)
| Root10 (a b : Q)
| NaN.

(** The results of [Math.floor]: an integer or NaN. *)
Inductive integral : Type :=
| Int (z : Z)
| NaNi.

(** The real [a + b * sqrt 10] as a number, in lowest terms. *)
Definition real (a b : Q) : number :=
  if Qeq_bool b 0 then Num (Qred a) else Root10 (Qred a) (Qred b).

(** The rational and the irrational part of a number that is not NaN. *)
Definition parts (x : number) : option (Q * Q) :=
  match x with
  | Num q => Some (q, 0%Q)
  | Root10 a b => Some (a, b)
  | NaN => None
  end.

(** [a + b * sqrt 10 < 0], decided on the squares when the signs of [a]
    and [b] differ. *)
Definition negative (a b : Q) : bool :=
  if Qle_bool 0 a
  then if Qle_bool 0 b then false
       else negb (Qle_bool (10 * b * b) (a * a))%Q
  else if Qle_bool 0 b then negb (Qle_bool (a * a) (10 * b * b))%Q
       else true.

(** The floor of [a + b * sqrt 10]: over the common denominator [d] this
    is [(p + r * sqrt 10) / d], and the floor of [r * sqrt 10] is an
    integer square root. *)
Definition floor_real (a b : Q) : Z :=
  let d := Z.pos (Qden a * Qden b) in
  let p := Qnum a * Z.pos (Qden b) in
  let r := Qnum b * Z.pos (Qden a) in
  (p + (if 0 <=? r then Z.sqrt (10 * r * r) else - Z.sqrt_up (10 * r * r)))
  / d.

Definition trunc_real (a b : Q) : Z :=
  if negative a b then - floor_real (- a)%Q (- b)%Q else floor_real a b.

Definition lt (a b : number) : bool :=
  match a, b with
  | Num x, Num y => negb (Qle_bool y x)
  | _, _ =>
      match parts a, parts b with
      | Some (x, u), Some (y, v) => negative (x - y)%Q (u - v)%Q
      | _, _ => false
      end
  end.

Definition gt (a b : number) : bool := lt b a.

Definition add (a b : number) : number :=
  match a, b with
  | Num x, Num y => Num (x + y)%Q
  | _, _ =>
      match parts a, parts b with
      | Some (x, u), Some (y, v) => real (x + y)%Q (u + v)%Q
      | _, _ => NaN
      end
  end.

Definition sub (a b : number) : number :=
  match a, b with
  | Num x, Num y => Num (x - y)%Q
  | _, _ =>
      match parts a, parts b with
      | Some (x, u), Some (y, v) => real (x - y)%Q (u - v)%Q
      | _, _ => NaN
      end
  end.

Definition mul (a b : number) : number :=
  match a, b with
  | Num x, Num y => Num (x * y)%Q
  | _, _ =>
      match parts a, parts b with
      | Some (x, u), Some (y, v) =>
          real (x * y + 10 * u * v)%Q (x * v + u * y)%Q
      | _, _ => NaN
      end
  end.

(** [a / b]; a zero divisor, which gives an infinity or NaN in JavaScript,
    is not modelled apart (the class divides by 100000 only). *)
Definition div (a b : number) : number :=
  match a, b with
  | Num x, Num y => if Qeq_bool y 0 then NaN else Num (x / y)
  | _, _ =>
      match parts a, parts b with
      | Some (x, u), Some (y, v) =>
          if Qeq_bool y 0 && Qeq_bool v 0 then NaN
          else
            let d := (y * y - 10 * v * v)%Q in
            real ((x * y - 10 * u * v) / d)%Q ((u * y - x * v) / d)%Q
      | _, _ => NaN
      end
  end.

Definition Qtrunc (q : Q) : Z :=
  if Qle_bool 0 q then Qfloor q else Qceiling q.

(** The integer part of a number, towards zero. *)
Definition trunc (a : number) : integral :=
  match a with
  | Num q => Int (Qtrunc q)
  | Root10 x u => Int (trunc_real x u)
  | NaN => NaNi
  end.

(** [a % b]: the remainder takes the sign of the dividend. *)
Definition rem (a b : number) : number :=
  match a, b with
  | Num x, Num y =>
      if Qeq_bool y 0 then NaN
      else Num (x - y * inject_Z (Qtrunc (x / y)))
  | _, _ =>
      match trunc (div a b) with
      | Int k => sub a (mul b (Num (inject_Z k)))
      | NaNi => NaN
      end
  end.

Definition Math_floor (a : number) : integral :=
  match a with
  | Num q => Int (Qfloor q)
  | Root10 x u => Int (floor_real x u)
  | NaN => NaNi
  end.

(** [Math.pow(10, t / 2)] for an integer [t]: a power of ten, times the
    square root of ten when [t] is odd. *)
Definition pow10 (k : Z) : Q :=
  if 0 <=? k then inject_Z (10 ^ k) else / inject_Z (10 ^ (- k)).

Definition Math_pow10_half (t : Z) : number :=
  if Z.even t then Num (pow10 (t / 2)) else Root10 0 (pow10 (t / 2)).

(** [String(v)] for an integer below 10^21 in magnitude or NaN. *)
Definition String_of (v : integral) : jsstring :=
  match v with
  | Int z =>
      if z <? 0 then "-"%char :: decimal (S (Z.to_nat (Z.log2 (- z)))) (- z)
      else decimal (S (Z.to_nat (Z.log2 z))) z
  | NaNi => lit "NaN"
  end.

(** [arr[k]]: the element, or [undefined] when [k] is no index of [arr]. *)
Definition array_get {A : Type} (arr : list A) (k : integral) : option A :=
  match k with
  | Int z => if z <? 0 then None else nth_error arr (Z.to_nat z)
  | NaNi => None
  end.

(** A value spliced into a template literal. *)
Definition template (v : option jsstring) : jsstring :=
  match v with
  | Some s => s
  | None => lit "undefined"
  end.

(** [Number(x.toFixed(d))] for [d] of 0 to 100: the nearest multiple of
    10^-d, a tie going away from zero; from 10^21 on [toFixed] prints the
    number as [String] does, and [Number] reads it back. *)
Definition toFixed (d : nat) (a : number) : number :=
  let scale := inject_Z (10 ^ Z.of_nat d) in
  match a with
  | Num q =>
      if Qle_bool (inject_Z (10 ^ 21)) (Qabs q) then Num q
      else
        let mag := Qfloor (Qabs q * scale + (1 # 2)) in
        Num (inject_Z (if Qle_bool 0 q then mag else - mag) / scale)
  | Root10 x u =>
      let neg := negative x u in
      let x' := if neg then (- x)%Q else x in
      let u' := if neg then (- u)%Q else u in
      if negative (x' - inject_Z (10 ^ 21))%Q u'
      then
        let mag := floor_real (x' * scale + (1 # 2))%Q (u' * scale)%Q in
        Num (inject_Z (if neg then - mag else mag) / scale)
      else Root10 x u
  | NaN => NaN
  end.

(** The argument of [toFixed]: a number or an infinity. *)
Inductive fractionDigits : Type :=
| Digits (n : number)
| Infinite.

(** [ToIntegerOrInfinity] and the range check of [toFixed]: NaN counts as
    0, a fraction is cut off, and what is then below 0, above 100 or
    infinite raises a RangeError ([None]). *)
Definition toFixed_digits (f : fractionDigits) : option nat :=
  match f with
  | Digits n =>
      match trunc n with
      | Int k => if (k <? 0) || (100 <? k) then None else Some (Z.to_nat k)
      | NaNi => Some O
      end
  | Infinite => None
  end.

(** Regular expressions: the operators the grid-reference pattern uses. *)
Inductive regex : Type :=
| Chars (cls : jsstring)            (* [abc], or one literal character *)
| Range (lo hi : ascii)             (* [lo-hi] *)
| Cat (r1 r2 : regex)               (* r1 r2 *)
| Optional (r : regex)              (* r? *)
| Repeat (r : regex) (lo hi : nat)  (* r{lo,hi} *).

(** [residuals r s]: what is left of [s] after each way [r] can match a
    prefix of it, in the order a backtracking matcher tries them. *)
Fixpoint residuals (r : regex) (s : jsstring) : list jsstring :=
  match r with
  | Chars cls =>
      match s with
      | c :: t => if existsb (Ascii.eqb c) cls then [t] else []
      | [] => []
      end
  | Range lo hi =>
      match s with
      | c :: t =>
          if (code lo <=? code c)%nat && (code c <=? code hi)%nat
          then [t] else []
      | [] => []
      end
  | Cat r1 r2 => flat_map (residuals r2) (residuals r1 s)
  | Optional r1 => residuals r1 s ++ [s]
  | Repeat r1 lo hi =>
      (fix rep (lo hi : nat) (s : jsstring) {struct hi} : list jsstring :=
         match hi with
         | O => if (lo =? 0)%nat then [s] else []
         | S hi' =>
             flat_map (rep (Nat.pred lo) hi') (residuals r1 s)
             ++ (if (lo =? 0)%nat then [s] else [])
         end) lo hi s
  end.

Definition is_empty (s : jsstring) : bool :=
  match s with [] => true | _ => false end.

(** [/^r$/.test(s)], equally [Array.isArray(s.match(/^r$/))]. *)
Definition test_anchored (r : regex) (s : jsstring) : bool :=
  existsb is_empty (residuals r s).

(** What a call leaves behind. *)
Inductive exception : Type := TypeError | RangeError.

Inductive completion (A : Type) : Type :=
| Normal (a : A)
| Throw (e : exception).

Inductive reply (A : Type) : Type :=
| Populated (a : A)
| EmptyObject.

Arguments Normal {A} a.
Arguments Throw {A} e.
Arguments Populated {A} a.
Arguments EmptyObject {A}.

End JS.

Import JS.

(** ** The class [OSTransform] *)
Module OSTransform.

(** A coordinates object: the fields it owns. *)
Record coordinates : Type := {
  ea : option number;
  no : option number;
  lat : option number;
  lng : option number
}.

Definition hasOwnProperty (field : option number) : bool :=
  match field with Some _ => true | None => false end.

(** Reading a field: [undefined] when absent, NaN once in arithmetic. *)
Definition get (field : option number) : number :=
  match field with Some v => v | None => NaN end.

(** [{ea: e, no: n}] and [{lat: a, lng: b}]. *)
Definition projected (e n : number) : coordinates :=
  {| ea := Some e; no := Some n; lat := None; lng := None |}.

Definition geographic (a b : number) : coordinates :=
  {| ea := None; no := None; lat := Some a; lng := Some b |}.

(** [options.maxBounds]: for each system the corner of the least and the
    corner of the greatest coordinates. *)
Record maxBounds_t : Type := {
  bounds_projected : (Q * Q) * (Q * Q);
  bounds_geographic : (Q * Q) * (Q * Q)
}.

Definition maxBounds : maxBounds_t := {|
  bounds_projected := ((0.0, 0.0), (699999.9, 1299999.9))%Q;
  bounds_geographic := ((-8.74, 49.84), (1.96, 60.9))%Q
|}.

(** The object [{valid, message}] both checks return. *)
Record validation : Type := {
  valid : bool;
  message : jsstring
}.

Definition _checkBounds (c : coordinates) : validation :=
  let isValid :=
    if hasOwnProperty (ea c) && hasOwnProperty (no c) then
      if (lt (get (ea c)) (Num (fst (fst (bounds_projected maxBounds))))
          || gt (get (ea c)) (Num (fst (snd (bounds_projected maxBounds)))))
         || (lt (get (no c)) (Num (snd (fst (bounds_projected maxBounds))))
             || gt (get (no c)) (Num (snd (snd (bounds_projected maxBounds)))))
      then false else true
    else if hasOwnProperty (lat c) && hasOwnProperty (lng c) then
      if (lt (get (lng c)) (Num (fst (fst (bounds_geographic maxBounds))))
          || gt (get (lng c)) (Num (fst (snd (bounds_geographic maxBounds)))))
         || (lt (get (lat c)) (Num (snd (fst (bounds_geographic maxBounds))))
             || gt (get (lat c)) (Num (snd (snd (bounds_geographic maxBounds)))))
      then false else true
    else true in
  {| valid := isValid;
     message := if isValid then lit "" else lit "Coordinates out of range." |}.

(** [/^[THJONS][VWXYZQRSTULMNOPFGHJKABCDE] ?[0-9]{1,5} ?[0-9]{1,5}$/] *)
Definition gridref_regex : regex :=
  Cat (Chars (lit "THJONS"))
 (Cat (Chars (lit "VWXYZQRSTULMNOPFGHJKABCDE"))
 (Cat (Optional (Chars (lit " ")))
 (Cat (Repeat (Range "0" "9") 1 5)
 (Cat (Optional (Chars (lit " ")))
      (Repeat (Range "0" "9") 1 5))))).

Definition _validateGridRef (gridref : jsstring) : validation :=
  let matched := test_anchored gridref_regex (toUpperCase gridref) in
  let isValid :=
    (length (remove_spaces gridref) mod 2 =? 0)%nat && matched in
  {| valid := isValid;
     message := if isValid then lit "" else lit "Invalid grid reference." |}.

(** The object [toGridRef] returns. *)
Record GridReference : Type := {
  text : jsstring;
  html : jsstring;
  letters : option jsstring;
  eastings : jsstring;
  northings : jsstring
}.

Definition prefixes : list (list jsstring) :=
  map (map lit)
  [ [ "SV"; "SW"; "SX"; "SY"; "SZ"; "TV"; "TW" ];
    [ "SQ"; "SR"; "SS"; "ST"; "SU"; "TQ"; "TR" ];
    [ "SL"; "SM"; "SN"; "SO"; "SP"; "TL"; "TM" ];
    [ "SF"; "SG"; "SH"; "SJ"; "SK"; "TF"; "TG" ];
    [ "SA"; "SB"; "SC"; "SD"; "SE"; "TA"; "TB" ];
    [ "NV"; "NW"; "NX"; "NY"; "NZ"; "OV"; "OW" ];
    [ "NQ"; "NR"; "NS"; "NT"; "NU"; "OQ"; "OR" ];
    [ "NL"; "NM"; "NN"; "NO"; "NP"; "OL"; "OM" ];
    [ "NF"; "NG"; "NH"; "NJ"; "NK"; "OF"; "OG" ];
    [ "NA"; "NB"; "NC"; "ND"; "NE"; "OA"; "OB" ];
    [ "HV"; "HW"; "HX"; "HY"; "HZ"; "JV"; "JW" ];
    [ "HQ"; "HR"; "HS"; "HT"; "HU"; "JQ"; "JR" ];
    [ "HL"; "HM"; "HN"; "HO"; "HP"; "JL"; "JM" ] ]%string.

(** [toGridRef(coordinates)].  The message written to the console on
    rejection is not part of the result and is left out.  Reading
    [prefixes[y][x]] raises a TypeError when [prefixes[y]] is undefined,
    and is itself undefined when only [x] misses the row. *)
Definition toGridRef (c : coordinates) : completion (reply GridReference) :=
  let test := _checkBounds c in
  if negb (valid test) then Normal EmptyObject
  else
    let x := Math_floor (div (get (ea c)) (Num 100000)) in
    let y := Math_floor (div (get (no c)) (Num 100000)) in
    match array_get prefixes y with
    | None => Throw TypeError
    | Some row =>
        let prefix := array_get row x in
        let e := Math_floor (rem (get (ea c)) (Num 100000)) in
        let n := Math_floor (rem (get (no c)) (Num 100000)) in
        let e := padStart 5 "0" (String_of e) in
        let n := padStart 5 "0" (String_of n) in
        Normal (Populated
          {| text := template prefix ++ lit " " ++ e ++ lit " " ++ n;
             html := template prefix ++ lit "&thinsp;" ++ e
                       ++ lit "&thinsp;" ++ n;
             letters := prefix;
             eastings := e;
             northings := n |})
    end.

Definition gridLetters : jsstring := lit "VWXYZQRSTULMNOPFGHJKABCDE".

(** [fromGridRef(gridref)], on the text [String(gridref)].  The offsets
    of the letters are integers: [%] is [Z.rem] and [Math.floor(k / 5)] is
    [k / 5].  The format check tests the parity of the text before it is
    upper-cased, so [ref] can come out with an odd number of digits when
    upper-casing lengthens the text; [i = (ref.length-2)/2] is then a
    half-integer.  [twice_i] is [2 i]: the scale [m] is
    [Math.pow(10, (10 - twice_i) / 2)], and [substring] cuts the fraction
    off the index [i + 2].  After the format check the two groups cut from
    [ref] are digits, which [ToNumber] reads when they are multiplied. *)
Definition fromGridRef (gridref : jsstring) : reply coordinates :=
  let gridref := trim gridref in
  let test := _validateGridRef gridref in
  if negb (valid test) then EmptyObject
  else
    let ref := remove_spaces (toUpperCase gridref) in
    let majorEasting :=
      Z.rem (indexOf gridLetters (charAt ref 0)) 5 * 500000 - 1000000 in
    let majorNorthing :=
      indexOf gridLetters (charAt ref 0) / 5 * 500000 - 500000 in
    let minorEasting :=
      Z.rem (indexOf gridLetters (charAt ref 1)) 5 * 100000 in
    let minorNorthing :=
      indexOf gridLetters (charAt ref 1) / 5 * 100000 in
    let twice_i := Z.of_nat (length ref) - 2 in
    let m := Math_pow10_half (10 - twice_i) in
    let e := add (Num (inject_Z (majorEasting + minorEasting)))
                 (mul (Num (inject_Z
                              (ToNumber (substring ref 2 ((twice_i + 4) / 2)))))
                      m) in
    let n := add (Num (inject_Z (majorNorthing + minorNorthing)))
                 (mul (Num (inject_Z
                              (ToNumber (substring_from ref ((twice_i + 4) / 2)))))
                      m) in
    Populated (projected e n).

(** The projection library is an outside collaborator: [proj4 from to
    [x, y]] returns a point or raises. *)
Section Projector.

Variable proj4 : jsstring -> jsstring -> number * number
                 -> completion (number * number).

(** A parameter [decimals = dflt]: the default stands in for an argument
    that is undefined; any other argument is given by its numeric value,
    which is how [toFixed] reads it. *)
Definition default_decimals (given : option fractionDigits) (dflt : Z)
  : fractionDigits :=
  match given with Some d => d | None => Digits (Num (inject_Z dflt)) end.

(** [toFixed] checks its argument when it is called, after the bounds
    check and the projection; the first of the two calls raises. *)
Definition toLatLng (c : coordinates) (decimals : option fractionDigits)
  : completion (reply coordinates) :=
  let decimals := default_decimals decimals 7 in
  let test := _checkBounds c in
  if negb (valid test) then Normal EmptyObject
  else
    match proj4 (lit "EPSG:27700") (lit "EPSG:4326")
                (get (ea c), get (no c)) with
    | Throw err => Throw err
    | Normal point =>
        match toFixed_digits decimals with
        | None => Throw RangeError
        | Some d =>
            Normal (Populated
              (geographic (toFixed d (snd point)) (toFixed d (fst point))))
        end
    end.

Definition fromLatLng (c : coordinates) (decimals : option fractionDigits)
  : completion (reply coordinates) :=
  let decimals := default_decimals decimals 2 in
  let test := _checkBounds c in
  if negb (valid test) then Normal EmptyObject
  else
    match proj4 (lit "EPSG:4326") (lit "EPSG:27700")
                (get (lng c), get (lat c)) with
    | Throw err => Throw err
    | Normal point =>
        match toFixed_digits decimals with
        | None => Throw RangeError
        | Some d =>
            Normal (Populated
              (projected (toFixed d (fst point)) (toFixed d (snd point))))
        end
    end.

Definition gridRefToLatLng (gridref : jsstring)
  (decimals : option fractionDigits)
  : completion (reply coordinates) :=
  match fromGridRef gridref with
  | EmptyObject => Normal EmptyObject
  | Populated c => toLatLng c decimals
  end.

End Projector.

End OSTransform.

Import OSTransform.

(** ** The decoding steps as the specification words them

    Section 4.2, Decode, steps 3 to 5: positions in the 25-letter sequence,
    the offsets of the 500 km and the 100 km tile, the scale factor, and
    the digit groups read as numbers. *)
Module Spec.

Definition sequence : jsstring := lit "VWXYZQRSTULMNOPFGHJKABCDE".

Fixpoint position (c : ascii) (s : jsstring) : option nat :=
  match s with
  | [] => None
  | d :: t =>
      if Ascii.eqb c d then Some O
      else option_map S (position c t)
  end.

(** A digit group as a number: the digit at place k counts 10^k. *)
Fixpoint numeral (group : jsstring) : Z :=
  match group with
  | [] => 0
  | d :: t => digit_value d * 10 ^ Z.of_nat (length t) + numeral t
  end.

Definition decode (l1 l2 : ascii) (group1 group2 : jsstring)
  : option (Z * Z) :=
  match position l1 sequence, position l2 sequence with
  | Some idx1, Some idx2 =>
      let idx1 := Z.of_nat idx1 in
      let idx2 := Z.of_nat idx2 in
      let majorEasting := (idx1 mod 5) * 500000 - 1000000 in
      let majorNorthing := (idx1 / 5) * 500000 - 500000 in
      let minorEasting := (idx2 mod 5) * 100000 in
      let minorNorthing := (idx2 / 5) * 100000 in
      let totalDigits := Z.of_nat (length group1 + length group2) in
      let i := totalDigits / 2 in
      let m := 10 ^ (5 - i) in
      Some (majorEasting + minorEasting + numeral group1 * m,
            majorNorthing + minorNorthing + numeral group2 * m)
  | _, _ => None
  end.

End Spec.

(** ** Vocabulary of the statements *)

(** The letters the pattern allows in first place. *)
Definition firstLetters : jsstring := lit "THJONS".

(** The written form [LL EEEEE NNNNN] of a reference, from its parts. *)
Definition written (l1 l2 : ascii) (group1 group2 : jsstring) : jsstring :=
  l1 :: l2 :: " "%char :: group1 ++ " "%char :: group2.

(** A coordinate of whole metres. *)
Definition metres (e n : Z) : coordinates :=
  projected (Num (inject_Z e)) (Num (inject_Z n)).

(** The number [base + b * sqrt 10] for integers [base] and [b]. *)
Definition root10_multiple (base b : Z) : number :=
  if b =? 0 then Num (inject_Z base)
  else Root10 (inject_Z base) (inject_Z b).

(** Offsets of a first and of a second letter, as [fromGridRef] computes
    them. *)
Definition major_easting (c : ascii) : Z :=
  Z.rem (indexOf gridLetters (Some c)) 5 * 500000 - 1000000.

Definition major_northing (c : ascii) : Z :=
  indexOf gridLetters (Some c) / 5 * 500000 - 500000.

Definition minor_easting (c : ascii) : Z :=
  Z.rem (indexOf gridLetters (Some c)) 5 * 100000.

Definition minor_northing (c : ascii) : Z :=
  indexOf gridLetters (Some c) / 5 * 100000.

(** The [k] low decimal digits of [n], most significant first. *)
Fixpoint fixed (k : nat) (n : Z) : jsstring :=
  match k with
  | O => []
  | S k' => fixed k' (n / 10) ++ [digit_char (n mod 10)]
  end.

(** The entry of the prefix table for tile [(x, y)]. *)
Definition tile (x y : nat) : option jsstring :=
  match nth_error prefixes y with
  | Some row => nth_error row x
  | None => None
  end.

Definition mem (c : ascii) (s : jsstring) : bool := existsb (Ascii.eqb c) s.

Definition jsstring_eqb (s t : jsstring) : bool :=
  if list_eq_dec ascii_dec s t then true else false.

(** The table entry of tile [(x, y)] is a letter pair the pattern allows,
    whose offsets add up to the corner of the tile. *)
Definition tile_decodes (x y : nat) : bool :=
  match tile x y with
  | Some [l1; l2] =>
      mem l1 firstLetters && mem l2 gridLetters
      && (major_easting l1 + minor_easting l2 =? 100000 * Z.of_nat x)
      && (major_northing l1 + minor_northing l2 =? 100000 * Z.of_nat y)
  | _ => false
  end.

(** The corner of the tile a letter pair names sits on the 100 km lattice,
    and when it falls inside the table the entry there is that pair. *)
Definition pair_encodes (l1 l2 : ascii) : bool :=
  let e := major_easting l1 + minor_easting l2 in
  let n := major_northing l1 + minor_northing l2 in
  (0 <=? e) && (e <? 1000000) && (e mod 100000 =? 0)
  && (0 <=? n) && (n <? 1500000) && (n mod 100000 =? 0)
  && (if (e <? 700000) && (n <? 1300000)
      then match tile (Z.to_nat (e / 100000)) (Z.to_nat (n / 100000)) with
           | Some p => jsstring_eqb p [l1; l2]
           | None => false
           end
      else true).

(** Within the projected bounds, as the specification gives them. *)
Definition in_projected_bounds (e n : Q) : Prop :=
  (0 <= e /\ e <= 699999.9)%Q /\ (0 <= n /\ n <= 1299999.9)%Q.

Definition in_geographic_bounds (a b : Q) : Prop :=
  (-8.74 <= b /\ b <= 1.96)%Q /\ (49.84 <= a /\ a <= 60.9)%Q.

(** [p] is a prefix of [s]. *)
Definition is_prefix (p s : jsstring) : Prop := exists rest, s = p ++ rest.

(** A string of decimal digits. *)
Definition digits (s : jsstring) : Prop :=
  Forall (fun c => is_digit c = true) s.

(** The texts the pattern of [_validateGridRef] describes: a letter of
    [THJONS], a letter of the 25-letter sequence, at most one space, one
    to five digits, at most one space, one to five digits. *)
Inductive matches_pattern : jsstring -> Prop :=
| pattern_parts (l1 l2 : ascii) (sp1 d1 sp2 d2 : jsstring) :
    mem l1 firstLetters = true ->
    mem l2 gridLetters = true ->
    sp1 = [] \/ sp1 = [" "%char] ->
    digits d1 -> (1 <= length d1 <= 5)%nat ->
    sp2 = [] \/ sp2 = [" "%char] ->
    digits d2 -> (1 <= length d2 <= 5)%nat ->
    matches_pattern (l1 :: l2 :: sp1 ++ d1 ++ sp2 ++ d2).

(** ** The request handlers of the server

    [server.js] answers each path from the value [getRequestData] makes
    of the query string or the JSON body.  That value is an object, or
    whatever else the body spells in JSON; when it is [null], binding the
    fields ([const { ea, no } = data]) raises a TypeError, which the
    [catch] of the branch answers with status 500.  Of any other value the
    fields are read, undefined where there is none.

    A handler reads a coordinate field only through [=== undefined] and
    [Number(..)], so a field is modelled by [None] when it is undefined
    and by what [Number] makes of it otherwise (NaN for a text that is no
    number).  It reads the [gridref] field through [!gridref] and hands it
    to [fromGridRef], which takes [String(gridref)].  The requests are
    those that reach the branches, that is, all but the OPTIONS
    preflight, which [fetch] answers before it looks at the path. *)
Module Server.

Inductive payload : Type :=
| ErrorMessage (error : jsstring)      (* { error: '...' } *)
| ErrorThrown (err : exception)        (* { error: error.message } *)
| GridReferencePayload (r : GridReference)
| CoordinatesPayload (c : coordinates).

Record response : Type := {
  body : payload;
  status : nat;
  headers : list (jsstring * jsstring)
}.

(** [jsonResponse(data, status)]. *)
Definition jsonResponse (data : payload) (code : nat) : response :=
  {| body := data;
     status := code;
     headers :=
       [ (lit "Content-Type", lit "application/json");
         (lit "Access-Control-Allow-Origin", lit "*");
         (lit "Access-Control-Allow-Methods", lit "GET, POST, OPTIONS");
         (lit "Access-Control-Allow-Headers", lit "Content-Type") ] |}.

(** The branch of [fetch] for [/api/to-gridref] once [ea] and [no] are
    bound to the fields of the request data. *)
Definition to_gridref (ea no : option number) : response :=
  match ea, no with
  | Some e, Some n =>
      match toGridRef (projected e n) with
      | Throw err => jsonResponse (ErrorThrown err) 500
      | Normal EmptyObject =>
          jsonResponse
            (ErrorMessage (lit "Invalid coordinates or out of bounds")) 400
      | Normal (Populated r) => jsonResponse (GridReferencePayload r) 200
      end
  | _, _ =>
      jsonResponse
        (ErrorMessage
           (lit "Missing required parameters: ea (easting) and no (northing)"))
        400
  end.

(** The branch of [fetch] for [/api/from-gridref] once [gridref] is bound
    to a field of the request data that is undefined or a string:
    [!gridref] holds of an undefined field and of the empty string. *)
Definition from_gridref (gridref : option jsstring) : response :=
  match gridref with
  | None =>
      jsonResponse
        (ErrorMessage
           (lit "Missing required parameter: gridref (grid reference)"))
        400
  | Some s =>
      if is_empty s
      then jsonResponse
             (ErrorMessage
                (lit "Missing required parameter: gridref (grid reference)"))
             400
      else
        match fromGridRef s with
        | EmptyObject =>
            jsonResponse (ErrorMessage (lit "Invalid grid reference")) 400
        | Populated c => jsonResponse (CoordinatesPayload c) 200
        end
  end.




(** The [gridref] field of the data: a value of which [!gridref] holds
    (undefined, null, false, 0, NaN, the empty string), or any other
    value, given by the text [String] makes of it: the string itself, or
    the print of a number, boolean, array or object. *)
Inductive gridref_field : Type :=
| Falsy
| Truthy (s : jsstring).

(** A field that is a string. *)
Definition string_field (s : jsstring) : gridref_field :=
  if is_empty s then Falsy else Truthy s.

(** The data of a request to [/api/from-gridref]. *)
Inductive from_gridref_data : Type :=
| NullReference
| ReferenceField (gridref : gridref_field).

(** The whole branch for [/api/from-gridref], from the request data on.
    [fromGridRef] raises nothing. *)
Definition api_from_gridref (data : from_gridref_data) : response :=
  match data with
  | NullReference => jsonResponse (ErrorThrown TypeError) 500
  | ReferenceField Falsy =>
      jsonResponse
        (ErrorMessage
           (lit "Missing required parameter: gridref (grid reference)"))
        400
  | ReferenceField (Truthy s) =>
      match fromGridRef s with
      | EmptyObject =>
          jsonResponse (ErrorMessage (lit "Invalid grid reference")) 400
      | Populated c => jsonResponse (CoordinatesPayload c) 200
      end
  end.

End Server.

(** ** Vocabulary of the further properties *)

(** A string of blanks, as [trim] removes them. *)
Definition blanks (s : jsstring) : Prop :=
  Forall (fun c => is_blank c = true) s.


(** Nothing, or one space: what the pattern allows between the parts. *)
Definition optional_gap (sp : jsstring) : Prop :=
  sp = [] \/ sp = [" "%char].

(** The letter pair is an entry of the prefix table. *)
Definition pair_in_table (l1 l2 : ascii) : bool :=
  existsb (existsb (jsstring_eqb [l1; l2])) prefixes.

(** The corner of the 100 km tile a letter pair names. *)
Definition corner (l1 l2 : ascii) : Z * Z :=
  (major_easting l1 + minor_easting l2,
   major_northing l1 + minor_northing l2).

(** The pair is in the table exactly when its corner is within the
    projected bounds. *)
Definition table_covers_bounds (l1 l2 : ascii) : bool :=
  Bool.eqb (pair_in_table l1 l2)
           ((fst (corner l1 l2) <? 700000) && (snd (corner l1 l2) <? 1300000)).

(** All pairs of a first and a second letter of the pattern. *)
Definition letter_pairs : list (ascii * ascii) :=
  list_prod firstLetters gridLetters.

(** Two letter pairs with the same corner are the same pair. *)
Definition corner_names_pair (p q : ascii * ascii) : bool :=
  if (fst (corner (fst p) (snd p)) =? fst (corner (fst q) (snd q)))
     && (snd (corner (fst p) (snd p)) =? snd (corner (fst q) (snd q)))
  then Ascii.eqb (fst p) (fst q) && Ascii.eqb (snd p) (snd q)
  else true.

(** ** Decimal digits *)

Lemma is_digit_spec (c : ascii) :
  is_digit c = true <-> (48 <= code c <= 57)%nat.
Proof.
  unfold is_digit. rewrite andb_true_iff, !Nat.leb_le. tauto.
Qed.

Lemma digit_value_range (c : ascii) :
  is_digit c = true -> 0 <= digit_value c < 10.
Proof.
  rewrite is_digit_spec. unfold digit_value. lia.
Qed.

Lemma digit_char_value (c : ascii) :
  is_digit c = true -> digit_char (digit_value c) = c.
Proof.
  rewrite is_digit_spec. intros H. unfold digit_char, digit_value.
  replace (48 + Z.to_nat (Z.of_nat (code c) - 48))%nat with (code c) by lia.
  apply ascii_nat_embedding.
Qed.

Lemma code_digit_char (d : Z) :
  0 <= d < 10 -> code (digit_char d) = (48 + Z.to_nat d)%nat.
Proof.
  intros H. unfold code, digit_char. apply nat_ascii_embedding. lia.
Qed.

Lemma digit_value_char (d : Z) :
  0 <= d < 10 -> digit_value (digit_char d) = d.
Proof.
  intros H. unfold digit_value. rewrite code_digit_char by exact H. lia.
Qed.

Lemma is_digit_char (d : Z) : 0 <= d < 10 -> is_digit (digit_char d) = true.
Proof.
  intros H. apply is_digit_spec. rewrite code_digit_char by exact H. lia.
Qed.

Lemma fold_digits_acc (s : jsstring) (a : Z) :
  fold_left (fun acc c => 10 * acc + digit_value c) s a
  = a * 10 ^ Z.of_nat (length s) + ToNumber s.
Proof.
  unfold ToNumber. revert a. induction s as [|c s IH]; intros a.
  - simpl. lia.
  - cbn [fold_left length]. rewrite IH, (IH (10 * 0 + digit_value c)).
    rewrite Nat2Z.inj_succ, Z.pow_succ_r by lia. ring.
Qed.

Lemma ToNumber_cons (c : ascii) (s : jsstring) :
  ToNumber (c :: s) = digit_value c * 10 ^ Z.of_nat (length s) + ToNumber s.
Proof.
  unfold ToNumber at 1. cbn [fold_left]. rewrite fold_digits_acc. ring.
Qed.

Lemma ToNumber_numeral (s : jsstring) : ToNumber s = Spec.numeral s.
Proof.
  induction s as [|c s IH]; [reflexivity|].
  rewrite ToNumber_cons, IH. reflexivity.
Qed.

Lemma ToNumber_app (s t : jsstring) :
  ToNumber (s ++ t) = ToNumber s * 10 ^ Z.of_nat (length t) + ToNumber t.
Proof.
  unfold ToNumber at 1. rewrite fold_left_app. fold (ToNumber s).
  apply fold_digits_acc.
Qed.

Lemma ToNumber_bounds (s : jsstring) :
  digits s -> 0 <= ToNumber s < 10 ^ Z.of_nat (length s).
Proof.
  induction 1 as [|c s Hc _ IH].
  - cbn. lia.
  - rewrite ToNumber_cons. cbn [length]. rewrite Nat2Z.inj_succ, Z.pow_succ_r by lia.
    pose proof (digit_value_range c Hc). nia.
Qed.

Lemma ToNumber_zeros (k : nat) : ToNumber (repeat "0"%char k) = 0.
Proof.
  induction k as [|k IH]; [reflexivity|].
  cbn [repeat]. rewrite ToNumber_cons, IH. reflexivity.
Qed.

Lemma digits_app (s t : jsstring) : digits (s ++ t) <-> digits s /\ digits t.
Proof. apply Forall_app. Qed.

Lemma digits_zeros (k : nat) : digits (repeat "0"%char k).
Proof.
  induction k; constructor; [reflexivity | assumption].
Qed.

(** ** Fixed-width decimals and [String] *)

Lemma fixed_length (k : nat) (n : Z) : length (fixed k n) = k.
Proof.
  revert n. induction k as [|k IH]; intros n; [reflexivity|].
  cbn [fixed]. rewrite length_app, IH. simpl. lia.
Qed.

Lemma fixed_digits (k : nat) (n : Z) : digits (fixed k n).
Proof.
  revert n. induction k as [|k IH]; intros n; [constructor|].
  cbn [fixed]. apply digits_app. split; [apply IH|].
  constructor; [|constructor]. apply is_digit_char.
  apply Z.mod_pos_bound. lia.
Qed.

Lemma fixed_zero (k : nat) : fixed k 0 = repeat "0"%char k.
Proof.
  induction k as [|k IH]; [reflexivity|].
  cbn [fixed]. change (0 / 10) with 0. rewrite IH.
  change (digit_char (0 mod 10)) with "0"%char.
  rewrite <- repeat_cons. reflexivity.
Qed.

Lemma ToNumber_fixed (k : nat) (n : Z) :
  0 <= n -> ToNumber (fixed k n) = n mod 10 ^ Z.of_nat k.
Proof.
  revert n. induction k as [|k IH]; intros n Hn.
  - cbn. symmetry. apply Z.mod_1_r.
  - cbn [fixed]. rewrite ToNumber_app, IH by (apply Z.div_pos; lia).
    cbn [length]. change (ToNumber [digit_char (n mod 10)])
      with (10 * 0 + digit_value (digit_char (n mod 10))).
    rewrite digit_value_char by (apply Z.mod_pos_bound; lia).
    change (10 ^ Z.of_nat 1) with 10.
    rewrite Nat2Z.inj_succ, Z.pow_succ_r by lia.
    rewrite Z.rem_mul_r by lia. ring.
Qed.

Lemma fixed_ToNumber (s : jsstring) :
  digits s -> fixed (length s) (ToNumber s) = s.
Proof.
  induction s as [|c s IH] using rev_ind; intros Hs; [reflexivity|].
  apply digits_app in Hs. destruct Hs as [Hs Hc].
  inversion Hc as [|c' l' Hd _]; subst.
  rewrite length_app, Nat.add_comm. cbn [length Nat.add fixed].
  rewrite ToNumber_app. cbn [length].
  change (ToNumber [c]) with (10 * 0 + digit_value c).
  change (10 ^ Z.of_nat 1) with 10.
  pose proof (digit_value_range c Hd) as Hr.
  replace ((ToNumber s * 10 + (10 * 0 + digit_value c)) / 10) with (ToNumber s)
    by (apply Z.div_unique with (r := digit_value c); lia).
  replace ((ToNumber s * 10 + (10 * 0 + digit_value c)) mod 10)
    with (digit_value c)
    by (apply Z.mod_unique with (q := ToNumber s); lia).
  rewrite IH by exact Hs. rewrite digit_char_value by exact Hd. reflexivity.
Qed.

Lemma decimal_step (f : nat) (n : Z) :
  decimal (S f) n
  = if n <? 10 then [digit_char n]
    else decimal f (n / 10) ++ [digit_char (n mod 10)].
Proof. reflexivity. Qed.

Lemma decimal_fixed (f k : nat) (n : Z) :
  0 <= n < 10 ^ Z.of_nat k -> n < 10 * 2 ^ Z.of_nat f -> (1 <= k)%nat ->
  padStart k "0" (decimal (S f) n) = fixed k n.
Proof.
  revert k n. induction f as [|f IH]; intros k n Hn Hf Hk;
    (destruct k as [|k]; [lia|]); rewrite decimal_step;
    destruct (Z.ltb_spec n 10) as [Hlt|Hge];
    try (unfold padStart; cbn [length fixed];
         rewrite Z.div_small, fixed_zero, Z.mod_small by lia;
         replace (S k - 1)%nat with k by lia; reflexivity).
  - cbn in Hf. lia.
  - assert (Hk2 : (1 <= k)%nat).
    { destruct k; [cbn in Hn; lia | lia]. }
    rewrite Nat2Z.inj_succ, Z.pow_succ_r in Hn, Hf by lia.
    assert (Hq : 0 <= n / 10 < 10 ^ Z.of_nat k).
    { split; [apply Z.div_pos; lia | apply Z.div_lt_upper_bound; lia]. }
    assert (Hq2 : n / 10 < 10 * 2 ^ Z.of_nat f).
    { apply Z.div_lt_upper_bound; lia. }
    specialize (IH k (n / 10) Hq Hq2 Hk2).
    cbn [fixed]. rewrite <- IH. unfold padStart.
    rewrite length_app. cbn [length].
    replace (S k - (length (decimal (S f) (n / 10)) + 1))%nat
      with (k - length (decimal (S f) (n / 10)))%nat by lia.
    rewrite app_assoc. reflexivity.
Qed.

Lemma padStart_String_of (k : nat) (n : Z) :
  0 <= n < 10 ^ Z.of_nat k -> (1 <= k)%nat ->
  padStart k "0" (String_of (Int n)) = fixed k n.
Proof.
  intros Hn Hk. unfold String_of.
  destruct (Z.ltb_spec n 0) as [Hneg|_]; [lia|].
  apply decimal_fixed; try assumption.
  rewrite Z2Nat.id by apply Z.log2_nonneg.
  destruct (Z.eq_dec n 0) as [->|Hnz]; [reflexivity|].
  pose proof (Z.log2_spec n ltac:(lia)) as Hl.
  rewrite Z.pow_succ_r in Hl by apply Z.log2_nonneg. lia.
Qed.

(** ** The regular-expression matcher *)

Lemma mem_In (c : ascii) (s : jsstring) : mem c s = true <-> In c s.
Proof.
  unfold mem. rewrite existsb_exists. split.
  - intros [d [Hd He]]. apply Ascii.eqb_eq in He. subst. exact Hd.
  - intros H. exists c. split; [exact H | apply Ascii.eqb_refl].
Qed.

Lemma residuals_Chars (cls s t : jsstring) :
  In t (residuals (Chars cls) s) <-> exists c, s = c :: t /\ mem c cls = true.
Proof.
  destruct s as [|c s']; cbn [residuals].
  - split; [intros [] | intros [c [H _]]; discriminate].
  - fold (mem c cls). destruct (mem c cls) eqn:Hm.
    + split.
      * intros [<-|[]]. exists c. auto.
      * intros [c' [He _]]. injection He as _ <-. left. reflexivity.
    + split; [intros [] | intros [c' [He Hc]]].
      injection He as <- _. congruence.
Qed.

Lemma residuals_Range (lo hi : ascii) (s t : jsstring) :
  In t (residuals (Range lo hi) s)
  <-> exists c, s = c :: t /\ (code lo <= code c <= code hi)%nat.
Proof.
  destruct s as [|c s']; cbn [residuals].
  - split; [intros [] | intros [c [H _]]; discriminate].
  - destruct (Nat.leb_spec (code lo) (code c));
      destruct (Nat.leb_spec (code c) (code hi)); cbn [andb]; split;
      try (intros [<-|[]]; exists c; split; [reflexivity | lia]);
      try (intros [c' [He Hc]]; injection He as <- <-; first [left; reflexivity | lia]);
      intros [].
Qed.

Lemma residuals_Cat (r1 r2 : regex) (s t : jsstring) :
  In t (residuals (Cat r1 r2) s)
  <-> exists u, In u (residuals r1 s) /\ In t (residuals r2 u).
Proof. cbn [residuals]. apply in_flat_map. Qed.

Lemma residuals_Optional (r : regex) (s t : jsstring) :
  In t (residuals (Optional r) s) <-> In t (residuals r s) \/ t = s.
Proof.
  cbn [residuals]. rewrite in_app_iff. cbn [In]. intuition congruence.
Qed.

Lemma residuals_Repeat_step (r : regex) (lo hi : nat) (s : jsstring) :
  residuals (Repeat r lo (S hi)) s
  = flat_map (residuals (Repeat r (Nat.pred lo) hi)) (residuals r s)
    ++ (if (lo =? 0)%nat then [s] else []).
Proof. reflexivity. Qed.

Lemma residuals_Repeat_zero (r : regex) (lo : nat) (s : jsstring) :
  residuals (Repeat r lo 0) s = if (lo =? 0)%nat then [s] else [].
Proof. reflexivity. Qed.

(** Bounded repetition of a one-character class consumes between [a] and
    [b] characters of the class. *)
Lemma residuals_Repeat_Range (lo hi : ascii) (a b : nat) (s t : jsstring) :
  In t (residuals (Repeat (Range lo hi) a b) s)
  <-> exists d, s = d ++ t
        /\ Forall (fun c => (code lo <= code c <= code hi)%nat) d
        /\ (a <= length d <= b)%nat.
Proof.
  revert a s. induction b as [|b IH]; intros a s.
  - rewrite residuals_Repeat_zero. destruct (Nat.eqb_spec a 0) as [->|Ha].
    + split.
      * intros [<-|[]]. exists []. repeat split; auto.
      * intros [d [-> [_ Hl]]]. destruct d; [left; reflexivity | cbn in Hl; lia].
    + split; [intros [] | intros [d [_ [_ Hl]]]; lia].
  - rewrite residuals_Repeat_step, in_app_iff, in_flat_map. split.
    + intros [[u [Hu Ht]] | Hz].
      * apply residuals_Range in Hu. destruct Hu as [c [-> Hc]].
        apply IH in Ht. destruct Ht as [d [-> [Hd Hl]]].
        exists (c :: d). repeat split; auto; cbn [length]; lia.
      * destruct (Nat.eqb_spec a 0) as [->|Ha]; [|destruct Hz].
        destruct Hz as [<-|[]]. exists []. repeat split; auto. cbn. lia.
    + intros [d [-> [Hd Hl]]]. destruct d as [|c d].
      * right. assert (a = 0)%nat as -> by (cbn in Hl; lia). left. reflexivity.
      * left. exists (d ++ t). inversion Hd; subst. split.
        -- apply residuals_Range. exists c. auto.
        -- apply IH. exists d. repeat split; auto; cbn [length] in Hl; lia.
Qed.

Lemma test_anchored_spec (r : regex) (s : jsstring) :
  test_anchored r s = true <-> In [] (residuals r s).
Proof.
  unfold test_anchored. rewrite existsb_exists. split.
  - intros [t [Ht He]]. destruct t; [exact Ht | discriminate].
  - intros H. exists []. auto.
Qed.

(** ** The texts the pattern allows *)

Lemma digit_range (d : jsstring) :
  Forall (fun c => (code "0" <= code c <= code "9")%nat) d <-> digits d.
Proof.
  unfold digits. split; intros H; induction H; constructor; auto.
  - apply is_digit_spec. exact H.
  - apply is_digit_spec in H. exact H.
Qed.

Lemma optional_space (s t : jsstring) :
  In t (residuals (Optional (Chars (lit " "))) s)
  <-> exists sp, s = sp ++ t /\ (sp = [] \/ sp = [" "%char]).
Proof.
  rewrite residuals_Optional, residuals_Chars. split.
  - intros [[c [-> Hc]] | ->].
    + apply mem_In in Hc. destruct Hc as [<-|[]]. exists [" "%char]. auto.
    + exists []. auto.
  - intros [sp [-> [->| ->]]]; [right; reflexivity|].
    left. exists " "%char. split; reflexivity.
Qed.

Lemma gridref_regex_spec (s : jsstring) :
  test_anchored gridref_regex s = true <-> matches_pattern s.
Proof.
  rewrite test_anchored_spec. unfold gridref_regex. split.
  - intros H.
    apply residuals_Cat in H. destruct H as [u1 [H1 H]].
    apply residuals_Cat in H. destruct H as [u2 [H2 H]].
    apply residuals_Cat in H. destruct H as [u3 [H3 H]].
    apply residuals_Cat in H. destruct H as [u4 [H4 H]].
    apply residuals_Cat in H. destruct H as [u5 [H5 H6]].
    apply residuals_Chars in H1. destruct H1 as [l1 [-> Hl1]].
    apply residuals_Chars in H2. destruct H2 as [l2 [-> Hl2]].
    apply optional_space in H3. destruct H3 as [sp1 [-> Hsp1]].
    apply residuals_Repeat_Range in H4. destruct H4 as [d1 [-> [Hd1 Hn1]]].
    apply optional_space in H5. destruct H5 as [sp2 [-> Hsp2]].
    apply residuals_Repeat_Range in H6. destruct H6 as [d2 [-> [Hd2 Hn2]]].
    rewrite app_nil_r. apply digit_range in Hd1, Hd2.
    constructor; assumption.
  - intros [l1 l2 sp1 d1 sp2 d2 Hl1 Hl2 Hsp1 Hd1 Hn1 Hsp2 Hd2 Hn2].
    apply residuals_Cat. exists (l2 :: sp1 ++ d1 ++ sp2 ++ d2). split.
    { apply residuals_Chars. exists l1. auto. }
    apply residuals_Cat. exists (sp1 ++ d1 ++ sp2 ++ d2). split.
    { apply residuals_Chars. exists l2. auto. }
    apply residuals_Cat. exists (d1 ++ sp2 ++ d2). split.
    { apply optional_space. exists sp1. auto. }
    apply residuals_Cat. exists (sp2 ++ d2). split.
    { apply residuals_Repeat_Range. exists d1. rewrite digit_range. auto. }
    apply residuals_Cat. exists d2. split.
    { apply optional_space. exists sp2. auto. }
    apply residuals_Repeat_Range. exists d2.
    rewrite digit_range, app_nil_r. auto.
Qed.

(** ** Case, spaces and blanks *)

Ltac each_ascii c :=
  destruct c as [[] [] [] [] [] [] [] []]; vm_compute; try reflexivity.

Lemma toUpperCase_cons (c : ascii) (s : jsstring) :
  toUpperCase (c :: s) = upper_units c ++ toUpperCase s.
Proof. reflexivity. Qed.

Lemma toUpperCase_app (s t : jsstring) :
  toUpperCase (s ++ t) = toUpperCase s ++ toUpperCase t.
Proof. apply flat_map_app. Qed.

Lemma remove_spaces_app (s t : jsstring) :
  remove_spaces (s ++ t) = remove_spaces s ++ remove_spaces t.
Proof. apply filter_app. Qed.

Lemma upper_units_space (c : ascii) :
  remove_spaces (upper_units c)
  = if Ascii.eqb c " " then [] else upper_units c.
Proof. each_ascii c. Qed.

Lemma remove_spaces_upper (s : jsstring) :
  remove_spaces (toUpperCase s) = toUpperCase (remove_spaces s).
Proof.
  induction s as [|c s IH]; [reflexivity|].
  rewrite toUpperCase_cons, remove_spaces_app, upper_units_space, IH.
  cbn [remove_spaces filter].
  destruct (Ascii.eqb c " "); cbn [negb]; reflexivity.
Qed.

Lemma digit_not_space (c : ascii) :
  is_digit c = true -> Ascii.eqb c " " = false.
Proof. each_ascii c; discriminate. Qed.

Lemma digit_not_blank (c : ascii) : is_digit c = true -> is_blank c = false.
Proof. each_ascii c; discriminate. Qed.

Lemma digit_upper (c : ascii) : is_digit c = true -> upper_units c = [c].
Proof. each_ascii c; discriminate. Qed.

Lemma letter_not_space (c : ascii) :
  mem c gridLetters = true -> Ascii.eqb c " " = false.
Proof. each_ascii c; discriminate. Qed.

Lemma letter_not_blank (c : ascii) :
  mem c gridLetters = true -> is_blank c = false.
Proof. each_ascii c; discriminate. Qed.

Lemma letter_upper (c : ascii) :
  mem c gridLetters = true -> upper_units c = [c].
Proof. each_ascii c; discriminate. Qed.

Lemma first_letter_is_letter (c : ascii) :
  mem c firstLetters = true -> mem c gridLetters = true.
Proof. each_ascii c; discriminate. Qed.

Lemma remove_spaces_digits (d : jsstring) : digits d -> remove_spaces d = d.
Proof.
  induction 1 as [|c d Hc _ IH]; [reflexivity|].
  cbn [remove_spaces filter]. rewrite (digit_not_space c Hc). cbn [negb].
  unfold remove_spaces in IH. rewrite IH. reflexivity.
Qed.

Lemma remove_optional_space (sp : jsstring) :
  sp = [] \/ sp = [" "%char] -> remove_spaces sp = [].
Proof. intros [-> | ->]; reflexivity. Qed.

Lemma toUpperCase_digits (d : jsstring) : digits d -> toUpperCase d = d.
Proof.
  induction 1 as [|c d Hc _ IH]; [reflexivity|].
  rewrite toUpperCase_cons, (digit_upper c Hc), IH. reflexivity.
Qed.

(** Upper-casing makes digits of digits only. *)
Lemma upper_units_digits (c : ascii) :
  forallb is_digit (upper_units c) = true -> upper_units c = [c].
Proof. each_ascii c; discriminate. Qed.

Lemma digits_forallb (s : jsstring) :
  digits s <-> forallb is_digit s = true.
Proof.
  unfold digits. rewrite forallb_forall, Forall_forall. reflexivity.
Qed.

Lemma toUpperCase_digits_inv (s : jsstring) :
  digits (toUpperCase s) -> toUpperCase s = s.
Proof.
  induction s as [|c s IH]; [reflexivity|].
  rewrite toUpperCase_cons. intros H. apply digits_app in H.
  destruct H as [Hc Hs]. apply digits_forallb in Hc.
  rewrite (upper_units_digits c Hc), (IH Hs). reflexivity.
Qed.

(** The sharp s is the one code unit that upper-cases to two. *)
Lemma upper_units_cases (c : ascii) :
  (c = sharp_s /\ upper_units c = lit "SS")
  \/ (c <> sharp_s /\ upper_units c = [upper_char c]).
Proof. each_ascii c; (left; split; reflexivity) || (right; split; [discriminate | reflexivity]). Qed.

Lemma trimStart_id (c : ascii) (s : jsstring) :
  is_blank c = false -> trimStart (c :: s) = c :: s.
Proof. intros H. cbn [trimStart]. rewrite H. reflexivity. Qed.

Lemma trim_id (c z : ascii) (s : jsstring) :
  is_blank c = false -> is_blank z = false ->
  trim (c :: s ++ [z]) = c :: s ++ [z].
Proof.
  intros Hc Hz. unfold trim, trimEnd. rewrite (trimStart_id c _ Hc).
  change (c :: s ++ [z]) with ((c :: s) ++ [z]).
  rewrite rev_app_distr. cbn [rev app].
  rewrite (trimStart_id z _ Hz).
  change (z :: rev s ++ [c]) with ([z] ++ rev (c :: s)).
  rewrite rev_app_distr, rev_involutive. reflexivity.
Qed.

Lemma digits_last (d : jsstring) :
  digits d -> (1 <= length d)%nat ->
  exists d' z, d = d' ++ [z] /\ is_blank z = false.
Proof.
  intros Hd Hl. destruct d as [|c d] using rev_ind; [cbn in Hl; lia|].
  exists d, c. split; [reflexivity|].
  apply digits_app in Hd. destruct Hd as [_ Hc]. inversion Hc; subst.
  apply digit_not_blank. assumption.
Qed.

(** ** What the format check lets through *)

Lemma valid_validateGridRef (g : jsstring) :
  valid (_validateGridRef g) = true
  <-> Nat.even (length (remove_spaces g)) = true
      /\ matches_pattern (toUpperCase g).
Proof.
  unfold _validateGridRef. cbn [valid]. rewrite andb_true_iff.
  rewrite gridref_regex_spec, Nat.eqb_eq, Nat.even_spec.
  split; intros [H1 H2]; split; try exact H2.
  - exists (length (remove_spaces g) / 2)%nat.
    apply Nat.Div0.div_exact. exact H1.
  - destruct H1 as [k ->]. rewrite Nat.mul_comm. apply Nat.Div0.mod_mul.
Qed.

Lemma matches_pattern_ref (s : jsstring) :
  matches_pattern s ->
  exists l1 l2 ds,
    remove_spaces s = l1 :: l2 :: ds
    /\ mem l1 firstLetters = true /\ mem l2 gridLetters = true
    /\ digits ds /\ (2 <= length ds <= 10)%nat.
Proof.
  intros [l1 l2 sp1 d1 sp2 d2 Hl1 Hl2 Hsp1 Hd1 Hn1 Hsp2 Hd2 Hn2].
  exists l1, l2, (d1 ++ d2).
  cbn [remove_spaces filter].
  rewrite (letter_not_space l1 (first_letter_is_letter l1 Hl1)).
  rewrite (letter_not_space l2 Hl2). cbn [negb].
  fold (remove_spaces (sp1 ++ d1 ++ sp2 ++ d2)).
  rewrite !remove_spaces_app.
  rewrite (remove_optional_space sp1), (remove_optional_space sp2),
    (remove_spaces_digits d1), (remove_spaces_digits d2) by assumption.
  cbn [app].
  repeat split; try assumption.
  - apply digits_app. auto.
  - rewrite length_app. lia.
  - rewrite length_app. lia.
Qed.

Lemma letter_not_digit (c : ascii) :
  mem c gridLetters = true -> is_digit c = false.
Proof. each_ascii c; discriminate. Qed.

(** A text without spaces whose upper-case form is two letters of the
    pattern and digits is either two characters and those digits, or the
    sharp s and those digits, the letters then being SS. *)
Lemma upper_reference_inv (h : jsstring) (l1 l2 : ascii) (ds : jsstring) :
  toUpperCase h = l1 :: l2 :: ds ->
  mem l2 gridLetters = true -> digits ds -> (1 <= length ds)%nat ->
  (exists k1 k2, h = k1 :: k2 :: ds /\ k1 <> sharp_s /\ k2 <> sharp_s
                 /\ upper_char k1 = l1 /\ upper_char k2 = l2)
  \/ (h = sharp_s :: ds /\ l1 = "S"%char /\ l2 = "S"%char).
Proof.
  intros Hup Hl2 Hd Hn.
  destruct h as [|c h]; [discriminate|].
  rewrite toUpperCase_cons in Hup.
  destruct (upper_units_cases c) as [[-> Hc] | [Hns Hc]]; rewrite Hc in Hup.
  - right. cbn [lit list_ascii_of_string app] in Hup.
    injection Hup as <- <- Hh.
    rewrite <- Hh in Hd. rewrite (toUpperCase_digits_inv h Hd) in Hh.
    subst h. auto.
  - left. cbn [app] in Hup. injection Hup as H1 Hh.
    destruct h as [|c2 h]; [discriminate|].
    rewrite toUpperCase_cons in Hh.
    destruct (upper_units_cases c2) as [[-> Hc2] | [Hns2 Hc2]];
      rewrite Hc2 in Hh.
    + cbn [lit list_ascii_of_string app] in Hh. injection Hh as _ Hh.
      rewrite <- Hh in Hd. inversion Hd; subst. discriminate.
    + cbn [app] in Hh. injection Hh as H2 Hh.
      rewrite <- Hh in Hd. rewrite (toUpperCase_digits_inv h Hd) in Hh.
      subst h. exists c, c2. auto.
Qed.

(** A text that passes the format check is, once upper-cased and rid of
    its spaces, two letters of the pattern and 2 to 10 digits.  The number
    of digits is even, unless the text begins with the sharp s: then the
    letters are SS and the number of digits is odd. *)
Lemma valid_reference (g : jsstring) :
  valid (_validateGridRef g) = true ->
  exists l1 l2 ds,
    remove_spaces (toUpperCase g) = l1 :: l2 :: ds
    /\ mem l1 firstLetters = true /\ mem l2 gridLetters = true
    /\ digits ds /\ (2 <= length ds <= 10)%nat
    /\ ((exists k1 k2, remove_spaces g = k1 :: k2 :: ds
                       /\ upper_char k1 = l1 /\ upper_char k2 = l2
                       /\ Nat.even (length ds) = true)
        \/ (remove_spaces g = sharp_s :: ds
            /\ l1 = "S"%char /\ l2 = "S"%char
            /\ Nat.odd (length ds) = true)).
Proof.
  intros H. apply valid_validateGridRef in H. destruct H as [Hev Hm].
  destruct (matches_pattern_ref _ Hm) as [l1 [l2 [ds [Href [Hl1 [Hl2 [Hd Hn]]]]]]].
  exists l1, l2, ds. repeat (split; [assumption || lia|]).
  rewrite remove_spaces_upper in Href.
  destruct (upper_reference_inv _ l1 l2 ds Href Hl2 Hd ltac:(lia))
    as [[k1 [k2 [Hh [_ [_ [H1 H2]]]]]] | [Hh [-> ->]]];
    rewrite Hh in Hev; cbn [length] in Hev.
  - left. exists k1, k2. repeat split; assumption.
  - right. rewrite Nat.even_succ in Hev. auto.
Qed.

(** ** [fromGridRef] on the two branches of its check *)

Lemma fromGridRef_invalid (g : jsstring) :
  valid (_validateGridRef (trim g)) = false -> fromGridRef g = EmptyObject.
Proof. intros H. unfold fromGridRef. rewrite H. reflexivity. Qed.

(** The two groups [substring] cuts from [ref]: the first [j] digits and
    the rest, [j] being half the number of digits, rounded down. *)
Lemma substring_groups (l1 l2 : ascii) (ds : jsstring) (j : nat) :
  (length ds = 2 * j \/ length ds = 2 * j + 1)%nat ->
  let ref := l1 :: l2 :: ds in
  let k := (Z.of_nat (length ref) - 2 + 4) / 2 in
  substring ref 2 k = firstn j ds /\ substring_from ref k = skipn j ds.
Proof.
  intros Hl ref k.
  assert (Hk : k = Z.of_nat (S (S j))).
  { subst k ref. cbn [length].
    destruct Hl as [Hl | Hl]; rewrite Hl.
    - replace (Z.of_nat (S (S (2 * j))) - 2 + 4) with (Z.of_nat (S (S j)) * 2)
        by lia.
      apply Z.div_mul. lia.
    - replace (Z.of_nat (S (S (2 * j + 1))) - 2 + 4)
        with (1 + Z.of_nat (S (S j)) * 2) by lia.
      rewrite Z.div_add by lia. reflexivity. }
  rewrite Hk. unfold substring_from, substring, clamp.
  subst ref. cbn [length].
  replace (Z.to_nat 2) with 2%nat by reflexivity.
  rewrite !Nat2Z.id.
  assert (Hj : (j <= length ds)%nat) by lia.
  replace (Nat.min (S (S (length ds))) 2) with 2%nat by lia.
  replace (Nat.min (S (S (length ds))) (S (S j))) with (S (S j)) by lia.
  rewrite Nat.min_id.
  replace (Nat.min 2 (S (S j))) with 2%nat by lia.
  replace (Nat.max 2 (S (S j))) with (S (S j)) by lia.
  replace (Nat.min (S (S j)) (S (S (length ds)))) with (S (S j)) by lia.
  replace (Nat.max (S (S j)) (S (S (length ds)))) with (S (S (length ds)))
    by lia.
  cbn [skipn]. split.
  - f_equal. lia.
  - apply firstn_all2. rewrite length_skipn. lia.
Qed.

(** Sums and products of whole numbers are whole numbers. *)
Lemma scaled_whole (base v t : Z) :
  add (Num (inject_Z base)) (mul (Num (inject_Z v)) (Num (inject_Z t)))
  = Num (inject_Z (base + v * t)).
Proof.
  unfold add, mul, inject_Z, Qplus, Qmult. cbn [Qnum Qden].
  rewrite !Z.mul_1_r. reflexivity.
Qed.

Lemma Math_pow10_half_even (k : Z) :
  0 <= k -> Math_pow10_half (2 * k) = Num (inject_Z (10 ^ k)).
Proof.
  intros Hk. unfold Math_pow10_half, pow10.
  rewrite Z.even_mul. cbn [Z.even orb].
  replace (2 * k / 2) with k by (rewrite Z.mul_comm, Z.div_mul; lia).
  destruct (Z.leb_spec 0 k); [reflexivity | lia].
Qed.

Lemma fromGridRef_valid (g : jsstring) (l1 l2 : ascii) (ds : jsstring) (i : nat) :
  valid (_validateGridRef (trim g)) = true ->
  remove_spaces (toUpperCase (trim g)) = l1 :: l2 :: ds ->
  length ds = (2 * i)%nat -> (i <= 5)%nat ->
  fromGridRef g
  = Populated (metres
      (major_easting l1 + minor_easting l2
       + ToNumber (firstn i ds) * 10 ^ (5 - Z.of_nat i))
      (major_northing l1 + minor_northing l2
       + ToNumber (skipn i ds) * 10 ^ (5 - Z.of_nat i))).
Proof.
  intros Hv Href Hl Hi. unfold fromGridRef. rewrite Hv. cbn [negb].
  rewrite Href.
  destruct (substring_groups l1 l2 ds i (or_introl Hl)) as [H1 H2].
  cbv zeta in H1, H2. rewrite H1, H2.
  replace (10 - (Z.of_nat (length (l1 :: l2 :: ds)) - 2))
    with (2 * (5 - Z.of_nat i)) by (cbn [length]; lia).
  rewrite Math_pow10_half_even by lia.
  rewrite !scaled_whole. reflexivity.
Qed.

(** ** The bounds check *)

Lemma lt_false (x y : Q) : lt (Num x) (Num y) = false <-> (y <= x)%Q.
Proof.
  cbn [lt]. rewrite negb_false_iff. apply Qle_bool_iff.
Qed.

Lemma within_iff (x lo hi : Q) :
  lt (Num x) (Num lo) || gt (Num x) (Num hi) = false
  <-> (lo <= x /\ x <= hi)%Q.
Proof.
  rewrite orb_false_iff. unfold gt. rewrite !lt_false. reflexivity.
Qed.

Lemma checkBounds_projected (e n : Q) :
  valid (_checkBounds (projected (Num e) (Num n))) = true
  <-> in_projected_bounds e n.
Proof.
  unfold in_projected_bounds, _checkBounds, projected.
  cbn [valid ea no hasOwnProperty get andb maxBounds bounds_projected fst snd].
  assert (H0 : (0 == 0.0)%Q) by reflexivity. rewrite !H0.
  rewrite <- (within_iff e), <- (within_iff n).
  destruct (lt (Num e) (Num 0.0) || gt (Num e) (Num 699999.9));
    destruct (lt (Num n) (Num 0.0) || gt (Num n) (Num 1299999.9));
    cbn [orb]; intuition congruence.
Qed.

Lemma checkBounds_geographic (a b : Q) :
  valid (_checkBounds (geographic (Num a) (Num b))) = true
  <-> in_geographic_bounds a b.
Proof.
  unfold in_geographic_bounds, _checkBounds, geographic.
  cbn [valid ea no lat lng hasOwnProperty get andb maxBounds
       bounds_geographic fst snd].
  rewrite <- (within_iff b), <- (within_iff a).
  destruct (lt (Num b) (Num (-8.74)) || gt (Num b) (Num 1.96));
    destruct (lt (Num a) (Num 49.84) || gt (Num a) (Num 60.9));
    cbn [orb]; intuition congruence.
Qed.

(** C5.  The bounds check compares: it refuses a field that is below its
    least or above its greatest value.  NaN is neither, so
    [_checkBounds] reports [{ea: NaN, no: NaN}] and [{lat: NaN, lng: NaN}]
    valid, and a NaN field beside any field that is within its bounds,
    though NaN lies in none of the four intervals. *)
Theorem checkBounds_accepts_NaN :
  valid (_checkBounds (projected NaN NaN)) = true
  /\ valid (_checkBounds (geographic NaN NaN)) = true
  /\ (forall e : Q, valid (_checkBounds (projected (Num e) NaN))
                    = valid (_checkBounds (projected (Num e) (Num 0))))
  /\ (forall n : Q, valid (_checkBounds (projected NaN (Num n)))
                    = valid (_checkBounds (projected (Num 0) (Num n)))).
Proof.
  split; [reflexivity|]. split; [reflexivity|].
  split; intros q; unfold _checkBounds, projected;
    cbn [valid ea no hasOwnProperty get andb maxBounds bounds_projected
         fst snd].
  - replace (lt NaN (Num 0.0)) with false by reflexivity.
    replace (gt NaN (Num 1299999.9)) with false by reflexivity.
    replace (lt (Num 0) (Num 0.0)) with false by reflexivity.
    replace (gt (Num 0) (Num 1299999.9)) with false by reflexivity.
    reflexivity.
  - replace (lt NaN (Num 0.0)) with false by reflexivity.
    replace (gt NaN (Num 699999.9)) with false by reflexivity.
    replace (lt (Num 0) (Num 0.0)) with false by reflexivity.
    replace (gt (Num 0) (Num 699999.9)) with false by reflexivity.
    reflexivity.
Qed.

(** ** Numbers with an irrational part *)

Lemma Qred_whole (q : Q) (z : Z) : (q == inject_Z z)%Q -> Qred q = inject_Z z.
Proof.
  intros H. rewrite (Qred_complete _ _ H). unfold Qred, inject_Z.
  pose proof (Z.ggcd_gcd z 1) as Hg.
  pose proof (Z.ggcd_correct_divisors z 1) as Hd.
  destruct (Z.ggcd z 1) as [g [a b]]. cbn [fst snd] in Hg, Hd.
  rewrite Z.gcd_1_r in Hg. subst g. destruct Hd as [Ha Hb].
  replace b with 1 by lia. replace a with z by lia. reflexivity.
Qed.

Lemma scaled_root (base v t : Z) :
  add (Num (inject_Z base)) (mul (Num (inject_Z v)) (Root10 0 (inject_Z t)))
  = root10_multiple base (v * t).
Proof.
  unfold root10_multiple, mul. cbn [parts]. unfold real.
  assert (HA : (inject_Z v * 0 + 10 * 0 * inject_Z t == inject_Z 0)%Q)
    by (unfold Qeq; cbn; lia).
  assert (HB : (inject_Z v * inject_Z t + 0 * 0 == inject_Z (v * t))%Q)
    by (unfold Qeq; cbn; lia).
  rewrite (Qred_whole _ _ HA), (Qred_whole _ _ HB).
  destruct (Z.eqb_spec (v * t) 0) as [E | E].
  - assert (Hz : Qeq_bool (inject_Z v * inject_Z t + 0 * 0) 0 = true).
    { apply Qeq_bool_iff. rewrite HB, E. reflexivity. }
    rewrite Hz. unfold add, inject_Z, Qplus. cbn [Qnum Qden].
    rewrite Z.mul_1_r. cbn. rewrite Z.add_0_r. reflexivity.
  - assert (Hz : Qeq_bool (inject_Z v * inject_Z t + 0 * 0) 0 = false).
    { apply not_true_is_false. intros H. apply Qeq_bool_iff in H.
      rewrite HB in H. unfold Qeq in H. cbn in H. lia. }
    rewrite Hz. unfold add. cbn [parts]. unfold real.
    assert (HC : (inject_Z base + inject_Z 0 == inject_Z base)%Q)
      by (unfold Qeq; cbn; lia).
    assert (HD : (0 + inject_Z (v * t) == inject_Z (v * t))%Q)
      by (unfold Qeq; cbn; lia).
    rewrite (Qred_whole _ _ HC), (Qred_whole _ _ HD).
    assert (Hz' : Qeq_bool (0 + inject_Z (v * t)) 0 = false).
    { apply not_true_is_false. intros H. apply Qeq_bool_iff in H.
      rewrite HD in H. unfold Qeq in H. cbn in H. lia. }
    rewrite Hz'. reflexivity.
Qed.

Lemma Math_pow10_half_odd (k : Z) :
  0 <= k -> Math_pow10_half (2 * k + 1) = Root10 0 (inject_Z (10 ^ k)).
Proof.
  intros Hk. unfold Math_pow10_half, pow10.
  replace (Z.even (2 * k + 1)) with false
    by (symmetry; rewrite Z.add_comm, Z.even_add_mul_2; reflexivity).
  replace ((2 * k + 1) / 2) with k
    by (rewrite Z.add_comm, Z.mul_comm, Z.div_add by lia; reflexivity).
  destruct (Z.leb_spec 0 k); [reflexivity | lia].
Qed.

(** A number [base + b * sqrt 10] with [0 <= b] is within [lo, hi] when
    [base] is and the square of [hi - base] makes up for ten squares of
    [b]. *)
Lemma root10_multiple_within (base b : Z) (lo hi : Q) :
  0 <= b -> (lo <= inject_Z base)%Q -> (inject_Z base <= hi)%Q ->
  (10 * inject_Z b * inject_Z b
   <= (hi - inject_Z base) * (hi - inject_Z base))%Q ->
  lt (root10_multiple base b) (Num lo)
  || gt (root10_multiple base b) (Num hi) = false.
Proof.
  intros Hb Hlo Hhi Hsq. unfold root10_multiple.
  destruct (Z.eqb_spec b 0) as [E | E].
  - apply within_iff. auto.
  - unfold gt, lt. cbn [parts]. unfold negative.
    assert (H1 : Qle_bool 0 (inject_Z base - lo) = true).
    { apply Qle_bool_iff. lra. }
    assert (H2 : Qle_bool 0 (inject_Z b - 0) = true).
    { apply Qle_bool_iff. unfold Qle. cbn. lia. }
    assert (H3 : Qle_bool 0 (hi - inject_Z base) = true).
    { apply Qle_bool_iff. lra. }
    assert (H4 : Qle_bool 0 (0 - inject_Z b) = false).
    { apply not_true_is_false. intros H. apply Qle_bool_iff in H.
      unfold Qle in H. cbn in H. lia. }
    assert (H5 : Qle_bool (10 * (0 - inject_Z b) * (0 - inject_Z b))
                          ((hi - inject_Z base) * (hi - inject_Z base)) = true).
    { apply Qle_bool_iff.
      setoid_replace (10 * (0 - inject_Z b) * (0 - inject_Z b))%Q
        with (10 * inject_Z b * inject_Z b)%Q by ring.
      exact Hsq. }
    rewrite H1, H2, H3, H4, H5. reflexivity.
Qed.

(** On a rational, written with an irrational part of zero, the sign test
    and the floor are those of the rational. *)
Lemma negative_rational (a : Q) : negative a 0 = negb (Qle_bool 0 a).
Proof.
  unfold negative. destruct (Qle_bool 0 a) eqn:Ha; [reflexivity|].
  cbn [negb]. change (Qle_bool 0 0) with true. cbn iota.
  apply negb_true_iff, not_true_is_false. intros H.
  apply Qle_bool_iff in H.
  assert (Hn : ~ (0 <= a)%Q) by (rewrite <- Qle_bool_iff; congruence).
  apply Hn. clear Hn Ha. unfold Qle in *. cbn in *. nia.
Qed.

Lemma floor_real_rational (a : Q) : floor_real a 0 = Qfloor a.
Proof.
  unfold floor_real. destruct a as [n d]. cbn [Qnum Qden Qfloor].
  rewrite Z.mul_0_l. cbn [Z.leb Z.compare Z.mul Z.sqrt].
  rewrite Pos.mul_1_r, Z.mul_1_r, Z.add_0_r. reflexivity.
Qed.

(** The sign test on numerators and denominators. *)
Lemma negative_spec (x y : Q) :
  negative x y
  = if 0 <=? Qnum x
    then if 0 <=? Qnum y then false
         else negb (10 * (Qnum y * QDen x) * (Qnum y * QDen x)
                    <=? (Qnum x * QDen y) * (Qnum x * QDen y))
    else if 0 <=? Qnum y
         then negb ((Qnum x * QDen y) * (Qnum x * QDen y)
                    <=? 10 * (Qnum y * QDen x) * (Qnum y * QDen x))
         else true.
Proof.
  unfold negative.
  assert (Hs : forall q : Q, Qle_bool 0 q = (0 <=? Qnum q)).
  { intros q. unfold Qle_bool. cbn [Qnum Qden]. rewrite Z.mul_1_r.
    reflexivity. }
  rewrite !Hs.
  assert (Hq : forall u v : Q,
            Qle_bool (10 * u * u) (v * v)
            = (10 * (Qnum u * QDen v) * (Qnum u * QDen v)
               <=? (Qnum v * QDen u) * (Qnum v * QDen u))).
  { intros u v. unfold Qle_bool, Qmult. cbn [Qnum Qden].
    rewrite !Pos2Z.inj_mul.
    apply Bool.eq_true_iff_eq. rewrite !Z.leb_le.
    pose proof (Pos2Z.is_pos (Qden u)). pose proof (Pos2Z.is_pos (Qden v)).
    split; intros; nia. }
  assert (Hr : forall u v : Q,
            Qle_bool (v * v) (10 * u * u)
            = ((Qnum v * QDen u) * (Qnum v * QDen u)
               <=? 10 * (Qnum u * QDen v) * (Qnum u * QDen v))).
  { intros u v. unfold Qle_bool, Qmult. cbn [Qnum Qden].
    rewrite !Pos2Z.inj_mul.
    apply Bool.eq_true_iff_eq. rewrite !Z.leb_le.
    pose proof (Pos2Z.is_pos (Qden u)). pose proof (Pos2Z.is_pos (Qden v)).
    split; intros; nia. }
  rewrite Hq, Hr. reflexivity.
Qed.

(** The floor of [r * sqrt 10] for an integer [r], by its square. *)
Lemma floor_root10 (r : Z) :
  let s := if 0 <=? r then Z.sqrt (10 * r * r) else - Z.sqrt_up (10 * r * r) in
  (0 <= r -> 0 <= s /\ s * s <= 10 * r * r < (s + 1) * (s + 1))
  /\ (r < 0 -> s < 0 /\ (s + 1) * (s + 1) < 10 * r * r <= s * s).
Proof.
  intros s. subst s. split; intros Hr.
  - destruct (Z.leb_spec 0 r); [|lia].
    pose proof (Z.sqrt_spec (10 * r * r) ltac:(nia)) as H1.
    pose proof (Z.sqrt_nonneg (10 * r * r)). unfold Z.succ in H1. nia.
  - destruct (Z.leb_spec 0 r); [lia|].
    pose proof (Z.sqrt_up_spec (10 * r * r) ltac:(nia)) as H1.
    unfold Z.pred in H1.
    assert (0 < Z.sqrt_up (10 * r * r)) by (apply Z.sqrt_up_pos; nia).
    nia.
Qed.

(** The floor of [a + b * sqrt 10] is the integer [k] with
    [k <= a + b * sqrt 10 < k + 1], as the sign test reads it. *)
Lemma floor_real_spec (a b : Q) :
  negative (a - inject_Z (floor_real a b)) b = false
  /\ negative (a - inject_Z (floor_real a b + 1)) b = true.
Proof.
  rewrite !negative_spec. unfold floor_real.
  destruct a as [n1 d1], b as [n2 d2].
  unfold Qminus, Qplus, Qopp, inject_Z. cbn [Qnum Qden].
  rewrite !Pos2Z.inj_mul. change (Z.pos 1) with 1. rewrite !Z.mul_1_r.
  pose proof (Pos2Z.is_pos d1) as Hd1. pose proof (Pos2Z.is_pos d2) as Hd2.
  set (D1 := Z.pos d1) in *. set (D2 := Z.pos d2) in *.
  pose proof (floor_root10 (n2 * D1)) as Hs. cbv zeta in Hs.
  set (s := if 0 <=? n2 * D1 then Z.sqrt (10 * (n2 * D1) * (n2 * D1))
            else - Z.sqrt_up (10 * (n2 * D1) * (n2 * D1))) in *.
  assert (HD : 0 < D1 * D2) by nia.
  pose proof (Z.div_mod (n1 * D2 + s) (D1 * D2) ltac:(lia)) as Hdm.
  pose proof (Z.mod_pos_bound (n1 * D2 + s) (D1 * D2) HD) as Hmb.
  set (k := (n1 * D2 + s) / (D1 * D2)) in *.
  set (m := (n1 * D2 + s) mod (D1 * D2)) in *.
  destruct Hs as [Hpos Hneg].
  split.
  - destruct (Z.leb_spec 0 (n1 + - k * D1));
      destruct (Z.leb_spec 0 n2); try reflexivity.
    + apply negb_false_iff, Z.leb_le.
      assert (Hr : n2 * D1 < 0) by nia. specialize (Hneg Hr).
      assert (0 <= (n1 + - k * D1) * D2) by nia.
      assert (- s <= (n1 + - k * D1) * D2) by nia.
      nia.
    + apply negb_false_iff, Z.leb_le.
      assert (Hr : 0 <= n2 * D1) by nia. specialize (Hpos Hr).
      assert ((n1 + - k * D1) * D2 < 0) by nia.
      assert (- s <= (n1 + - k * D1) * D2) by nia.
      nia.
    + exfalso.
      assert (Hr : n2 * D1 < 0) by nia. specialize (Hneg Hr).
      assert ((n1 + - k * D1) * D2 < 0) by nia.
      assert (- s <= (n1 + - k * D1) * D2) by nia.
      lia.
  - destruct (Z.leb_spec 0 (n1 + - (k + 1) * D1));
      destruct (Z.leb_spec 0 n2); try reflexivity.
    + exfalso.
      assert (Hr : 0 <= n2 * D1) by nia. specialize (Hpos Hr).
      assert (0 <= (n1 + - (k + 1) * D1) * D2) by nia.
      assert ((n1 + - (k + 1) * D1) * D2 + s < 0) by nia.
      lia.
    + apply negb_true_iff, Z.leb_gt.
      assert (Hr : n2 * D1 < 0) by nia. specialize (Hneg Hr).
      assert (0 <= (n1 + - (k + 1) * D1) * D2) by nia.
      assert ((n1 + - (k + 1) * D1) * D2 + s < 0) by nia.
      nia.
    + apply negb_true_iff, Z.leb_gt.
      assert (Hr : 0 <= n2 * D1) by nia. specialize (Hpos Hr).
      assert ((n1 + - (k + 1) * D1) * D2 < 0) by nia.
      assert ((n1 + - (k + 1) * D1) * D2 + s < 0) by nia.
      nia.
Qed.

(** ** The anchor scenarios *)

(** C6.  [toGridRef({ea: 337297, no: 503695})] has text "NY 37297 03695",
    letters "NY", eastings "37297" and northings "03695";
    [fromGridRef("NY 37297 03695")] is [{ea: 337297, no: 503695}]; and
    [toGridRef({ea: 651409, no: 313177})] has text "TG 51409 13177". *)
Theorem anchor_scenarios :
  (exists r,
     toGridRef (metres 337297 503695) = Normal (Populated r)
     /\ text r = lit "NY 37297 03695"
     /\ letters r = Some (lit "NY")
     /\ eastings r = lit "37297"
     /\ northings r = lit "03695")
  /\ fromGridRef (lit "NY 37297 03695") = Populated (metres 337297 503695)
  /\ (exists r,
        toGridRef (metres 651409 313177) = Normal (Populated r)
        /\ text r = lit "TG 51409 13177").
Proof.
  split; [|split].
  - eexists. split; [vm_compute; reflexivity|]. repeat split.
  - vm_compute. reflexivity.
  - eexists. split; [vm_compute; reflexivity|]. reflexivity.
Qed.

(** ** Letters and their offsets *)

Lemma index_of_position (c : ascii) (s : jsstring) (k : Z) :
  mem c s = true ->
  exists p, Spec.position c s = Some p /\ index_of c s k = k + Z.of_nat p.
Proof.
  revert k. induction s as [|d s IH]; intros k Hm; [discriminate|].
  cbn [mem existsb] in Hm. cbn [Spec.position index_of].
  destruct (Ascii.eqb c d).
  - exists O. split; [reflexivity | lia].
  - cbn [orb] in Hm. destruct (IH (k + 1) Hm) as [p [Hp Hi]].
    exists (S p). rewrite Hp, Hi. split; [reflexivity | lia].
Qed.

Lemma letter_pairs_checked :
  forallb (fun l1 => forallb (pair_encodes l1) gridLetters) firstLetters = true.
Proof. vm_compute. reflexivity. Qed.

Lemma pair_encodes_all (l1 l2 : ascii) :
  mem l1 firstLetters = true -> mem l2 gridLetters = true ->
  pair_encodes l1 l2 = true.
Proof.
  intros H1 H2. apply mem_In in H1, H2.
  pose proof letter_pairs_checked as H.
  rewrite forallb_forall in H. specialize (H l1 H1).
  rewrite forallb_forall in H. exact (H l2 H2).
Qed.

(** The corner a letter pair names: on the 100 km lattice, at most
    900 km east and 1400 km north. *)
Lemma corner_range (l1 l2 : ascii) :
  mem l1 firstLetters = true -> mem l2 gridLetters = true ->
  let e := major_easting l1 + minor_easting l2 in
  let n := major_northing l1 + minor_northing l2 in
  (0 <= e < 1000000 /\ e mod 100000 = 0)
  /\ (0 <= n < 1500000 /\ n mod 100000 = 0).
Proof.
  intros H1 H2 e n. pose proof (pair_encodes_all l1 l2 H1 H2) as H.
  unfold pair_encodes in H. fold e n in H.
  rewrite !andb_true_iff in H.
  destruct H as [[[[[[Ha Hb] Hc] Hd] He] Hf] _].
  apply Z.leb_le in Ha, Hd. apply Z.ltb_lt in Hb, He.
  apply Z.eqb_eq in Hc, Hf. auto.
Qed.

(** ** Decoding, claim by claim *)

Lemma fromGridRef_valid_odd
  (g : jsstring) (l1 l2 : ascii) (ds : jsstring) (j : nat) :
  valid (_validateGridRef (trim g)) = true ->
  remove_spaces (toUpperCase (trim g)) = l1 :: l2 :: ds ->
  length ds = (2 * j + 1)%nat -> (j <= 4)%nat ->
  fromGridRef g
  = Populated (projected
      (root10_multiple (major_easting l1 + minor_easting l2)
         (ToNumber (firstn j ds) * 10 ^ (4 - Z.of_nat j)))
      (root10_multiple (major_northing l1 + minor_northing l2)
         (ToNumber (skipn j ds) * 10 ^ (4 - Z.of_nat j)))).
Proof.
  intros Hv Href Hl Hj. unfold fromGridRef. rewrite Hv. cbn [negb].
  rewrite Href.
  destruct (substring_groups l1 l2 ds j (or_intror Hl)) as [H1 H2].
  cbv zeta in H1, H2. rewrite H1, H2.
  replace (10 - (Z.of_nat (length (l1 :: l2 :: ds)) - 2))
    with (2 * (4 - Z.of_nat j) + 1) by (cbn [length]; lia).
  rewrite Math_pow10_half_odd by lia.
  rewrite !scaled_root. reflexivity.
Qed.

Lemma root10_multiple_number (base b : Z) : root10_multiple base b <> NaN.
Proof. unfold root10_multiple. destruct (b =? 0); discriminate. Qed.

Lemma fromGridRef_populated (gridref : jsstring) :
  valid (_validateGridRef (trim gridref)) = true ->
  exists e n : number,
    fromGridRef gridref = Populated (projected e n)
    /\ e <> NaN /\ n <> NaN.
Proof.
  intros Hv.
  destruct (valid_reference _ Hv)
    as [l1 [l2 [ds [Href [_ [_ [_ [Hn
         [[k1 [k2 [_ [_ [_ Hev]]]]] | [_ [_ [_ Hodd]]]]]]]]]]]].
  - apply Nat.even_spec in Hev. destruct Hev as [i Hl].
    rewrite (fromGridRef_valid gridref l1 l2 ds i Hv Href Hl ltac:(lia)).
    eexists. eexists. split; [reflexivity|]. split; discriminate.
  - apply Nat.odd_spec in Hodd. destruct Hodd as [j Hl].
    rewrite (fromGridRef_valid_odd gridref l1 l2 ds j Hv Href Hl ltac:(lia)).
    eexists. eexists. split; [reflexivity|].
    split; apply root10_multiple_number.
Qed.

Lemma fromGridRef_empty_iff (gridref : jsstring) :
  fromGridRef gridref = EmptyObject
  <-> valid (_validateGridRef (trim gridref)) = false.
Proof.
  split.
  - intros He. destruct (valid (_validateGridRef (trim gridref))) eqn:Hv;
      [|reflexivity].
    destruct (fromGridRef_populated gridref Hv) as [e [n [Hp _]]]. congruence.
  - apply fromGridRef_invalid.
Qed.


Lemma stripped_parts (l1 l2 : ascii) (sp1 d1 sp2 d2 : jsstring) :
  mem l1 firstLetters = true -> mem l2 gridLetters = true ->
  sp1 = [] \/ sp1 = [" "%char] -> sp2 = [] \/ sp2 = [" "%char] ->
  digits d1 -> digits d2 ->
  remove_spaces (l1 :: l2 :: sp1 ++ d1 ++ sp2 ++ d2) = l1 :: l2 :: d1 ++ d2.
Proof.
  intros H1 H2 Hs1 Hs2 Hd1 Hd2. cbn [remove_spaces filter].
  rewrite (letter_not_space l1 (first_letter_is_letter l1 H1)).
  rewrite (letter_not_space l2 H2). cbn [negb].
  fold (remove_spaces (sp1 ++ d1 ++ sp2 ++ d2)).
  rewrite !remove_spaces_app.
  rewrite (remove_optional_space sp1), (remove_optional_space sp2),
    (remove_spaces_digits d1), (remove_spaces_digits d2) by assumption.
  reflexivity.
Qed.

(** The steps of the specification and the arithmetic of [fromGridRef]
    agree on a letter pair and two digit groups of [2 i] digits in all. *)
Lemma decode_agrees (l1 l2 : ascii) (g1 g2 : jsstring) (i : nat) :
  mem l1 gridLetters = true -> mem l2 gridLetters = true ->
  (length g1 + length g2 = 2 * i)%nat ->
  Spec.decode l1 l2 g1 g2
  = Some (major_easting l1 + minor_easting l2
          + ToNumber g1 * 10 ^ (5 - Z.of_nat i),
          major_northing l1 + minor_northing l2
          + ToNumber g2 * 10 ^ (5 - Z.of_nat i)).
Proof.
  intros H1 H2 Hl.
  destruct (index_of_position l1 _ 0 H1) as [p1 [Hp1 Hx1]].
  destruct (index_of_position l2 _ 0 H2) as [p2 [Hp2 Hx2]].
  unfold Spec.decode. change Spec.sequence with gridLetters.
  rewrite Hp1, Hp2.
  unfold major_easting, major_northing, minor_easting, minor_northing, indexOf.
  rewrite Hx1, Hx2, !Z.add_0_l.
  rewrite !Z.rem_mod_nonneg by lia.
  rewrite <- !ToNumber_numeral, Hl.
  replace (Z.of_nat (2 * i) / 2) with (Z.of_nat i)
    by (rewrite Nat2Z.inj_mul, Z.mul_comm, Z.div_mul; lia).
  reflexivity.
Qed.

(** What the format check lets through with an even number of digits. *)
Lemma even_reference
  (g : jsstring) (l1 l2 : ascii) (ds : jsstring) (i : nat) :
  valid (_validateGridRef (trim g)) = true ->
  remove_spaces (toUpperCase (trim g)) = l1 :: l2 :: ds ->
  length ds = (2 * i)%nat ->
  mem l1 firstLetters = true /\ mem l2 gridLetters = true
  /\ digits ds /\ (1 <= i <= 5)%nat.
Proof.
  intros Hv Href Hl. apply valid_validateGridRef in Hv.
  destruct Hv as [_ Hm].
  destruct (matches_pattern_ref _ Hm)
    as [k1 [k2 [es [Href' [Hk1 [Hk2 [Hd Hn]]]]]]].
  rewrite Href in Href'. injection Href' as <- <- <-.
  repeat split; try assumption; lia.
Qed.

(** C4, as stated, fails: "NY 37 0369" passes the format check, its
    groups are 37 and 0369, on which the steps give 303700 and 536900,
    and [fromGridRef] reads 370 and 369. *)
Lemma written_groups_not_followed :
  valid (_validateGridRef (trim (lit "NY 37 0369"))) = true
  /\ Spec.decode "N" "Y" (lit "37") (lit "0369") = Some (303700, 536900)
  /\ fromGridRef (lit "NY 37 0369") = Populated (metres 337000 536900)
  /\ fromGridRef (lit "NY 37 0369") <> Populated (metres 303700 536900).
Proof.
  split; [vm_compute; reflexivity|]. split; [vm_compute; reflexivity|].
  split; [vm_compute; reflexivity|]. vm_compute. discriminate.
Qed.

(** C4, amended.  For a text that passes the format check and holds
    [2 i] digits, [fromGridRef] returns what the steps of the
    specification compute from its two letters and two digit groups of
    [i] digits each: the halves of its digit string, which are the groups
    as written whenever those are equally long. *)
Theorem fromGridRef_follows_steps
  (gridref : jsstring) (l1 l2 : ascii) (ds : jsstring) (i : nat) :
  valid (_validateGridRef (trim gridref)) = true ->
  remove_spaces (toUpperCase (trim gridref)) = l1 :: l2 :: ds ->
  length ds = (2 * i)%nat ->
  (exists E N : Z,
     Spec.decode l1 l2 (firstn i ds) (skipn i ds) = Some (E, N)
     /\ fromGridRef gridref = Populated (metres E N))
  /\ (forall sp1 d1 sp2 d2 : jsstring,
        toUpperCase (trim gridref) = l1 :: l2 :: sp1 ++ d1 ++ sp2 ++ d2 ->
        sp1 = [] \/ sp1 = [" "%char] -> sp2 = [] \/ sp2 = [" "%char] ->
        digits d1 -> digits d2 -> length d1 = length d2 ->
        exists E N : Z,
          Spec.decode l1 l2 d1 d2 = Some (E, N)
          /\ fromGridRef gridref = Populated (metres E N)).
Proof.
  intros Hv Href Hl.
  destruct (even_reference gridref l1 l2 ds i Hv Href Hl)
    as [Hl1 [Hl2 [Hd Hi]]].
  pose proof (fromGridRef_valid gridref l1 l2 ds i Hv Href Hl (proj2 Hi))
    as Hdec.
  assert (Hsteps : Spec.decode l1 l2 (firstn i ds) (skipn i ds)
                   = Some (major_easting l1 + minor_easting l2
                           + ToNumber (firstn i ds) * 10 ^ (5 - Z.of_nat i),
                           major_northing l1 + minor_northing l2
                           + ToNumber (skipn i ds) * 10 ^ (5 - Z.of_nat i))).
  { apply decode_agrees;
      [apply first_letter_is_letter; exact Hl1 | exact Hl2 |].
    rewrite <- length_app, firstn_skipn. exact Hl. }
  split.
  - eexists. eexists. split; [exact Hsteps | exact Hdec].
  - intros sp1 d1 sp2 d2 Hup Hs1 Hs2 Hd1 Hd2 Heq.
    assert (Hds : ds = d1 ++ d2).
    { rewrite Hup, (stripped_parts l1 l2 sp1 d1 sp2 d2) in Href
        by assumption.
      injection Href as <-. reflexivity. }
    assert (Hi' : i = length d1).
    { rewrite Hds, length_app in Hl. lia. }
    assert (H1 : firstn i ds = d1).
    { rewrite Hds, Hi', firstn_app, Nat.sub_diag, firstn_all.
      cbn [firstn]. apply app_nil_r. }
    assert (H2 : skipn i ds = d2).
    { rewrite Hds, Hi', skipn_app, Nat.sub_diag, skipn_all.
      reflexivity. }
    rewrite H1, H2 in Hsteps. rewrite H1, H2 in Hdec.
    eexists. eexists. split; [exact Hsteps | exact Hdec].
Qed.

Lemma fromGridRef_follows_steps_witness :
  fromGridRef (lit " ny 373 036 ") = Populated (metres 337300 503600)
  /\ Spec.decode "N" "Y" (lit "373") (lit "036") = Some (337300, 503600).
Proof.
  destruct (fromGridRef_follows_steps (lit " ny 373 036 ")
              "N"%char "Y"%char (lit "373036") 3 eq_refl eq_refl eq_refl)
    as [_ H].
  destruct (H (lit " ") (lit "373") (lit " ") (lit "036")
              eq_refl (or_intror eq_refl) (or_intror eq_refl)
              ltac:(repeat constructor) ltac:(repeat constructor) eq_refl)
    as [E [N [Hd Hf]]].
  vm_compute in Hd. injection Hd as <- <-.
  split; [exact Hf | reflexivity].
Defined.

Lemma digits_halves (ds : jsstring) (i : nat) :
  digits ds -> digits (firstn i ds) /\ digits (skipn i ds).
Proof.
  intros Hd. apply digits_app. rewrite firstn_skipn. exact Hd.
Qed.

Lemma scaled_group (ds : jsstring) (i : nat) :
  digits ds -> length ds = (2 * i)%nat -> (1 <= i <= 5)%nat ->
  let m := 10 ^ (5 - Z.of_nat i) in
  (0 <= ToNumber (firstn i ds) * m < 100000
   /\ 0 <= ToNumber (skipn i ds) * m < 100000)
  /\ (m | 100000).
Proof.
  intros Hd Hl Hi m.
  assert (H1 : 0 <= ToNumber (firstn i ds) < 10 ^ Z.of_nat i).
  { pose proof (ToNumber_bounds _ (proj1 (digits_halves ds i Hd))) as H.
    rewrite length_firstn in H.
    replace (Nat.min i (length ds)) with i in H by lia. exact H. }
  assert (H2 : 0 <= ToNumber (skipn i ds) < 10 ^ Z.of_nat i).
  { pose proof (ToNumber_bounds _ (proj2 (digits_halves ds i Hd))) as H.
    rewrite length_skipn in H.
    replace (length ds - i)%nat with i in H by lia. exact H. }
  assert (Hm : m * 10 ^ Z.of_nat i = 100000).
  { subst m. rewrite <- Z.pow_add_r by lia.
    replace (5 - Z.of_nat i + Z.of_nat i) with 5 by lia. reflexivity. }
  assert (Hmp : 0 < m) by (subst m; apply Z.pow_pos_nonneg; lia).
  split; [split; nia|]. exists (10 ^ Z.of_nat i). lia.
Qed.




(** ** Arithmetic of [toGridRef] *)

Lemma Qfloor_unique (q : Q) (z : Z) :
  (inject_Z z <= q)%Q -> (q < inject_Z (z + 1))%Q -> Qfloor q = z.
Proof.
  intros Hlo Hhi.
  pose proof (Qfloor_le q) as Fl. pose proof (Qlt_floor q) as Fh.
  assert (H1 : (inject_Z (Qfloor q) < inject_Z (z + 1))%Q)
    by (eapply Qle_lt_trans; eassumption).
  assert (H2 : (inject_Z z < inject_Z (Qfloor q + 1))%Q)
    by (eapply Qle_lt_trans; eassumption).
  rewrite <- Zlt_Qlt in H1, H2. lia.
Qed.

Lemma Qfloor_minus_Z (q : Q) (z : Z) :
  Qfloor (q - inject_Z z) = Qfloor q - z.
Proof.
  pose proof (Qfloor_le q) as Fl. pose proof (Qlt_floor q) as Fh.
  apply Qfloor_unique.
  - unfold Z.sub. rewrite inject_Z_plus, inject_Z_opp. lra.
  - replace (Qfloor q - z + 1) with (Qfloor q + 1 + - z) by lia.
    rewrite inject_Z_plus, inject_Z_opp. lra.
Qed.

Lemma Qfloor_div_100000 (q : Q) : Qfloor (q / 100000) = Qfloor q / 100000.
Proof.
  destruct q as [a b]. unfold Qdiv, Qmult, Qinv, Qfloor.
  cbn [Qnum Qden]. rewrite Z.mul_1_r, Pos2Z.inj_mul.
  symmetry. apply Z.div_div; lia.
Qed.

Lemma Qtrunc_nonneg (q : Q) : (0 <= q)%Q -> Qtrunc q = Qfloor q.
Proof.
  intros H. unfold Qtrunc. apply Qle_bool_iff in H. rewrite H. reflexivity.
Qed.

Lemma floor_of_quotient (q : Q) :
  Math_floor (div (Num q) (Num 100000)) = Int (Qfloor q / 100000).
Proof.
  unfold div, Math_floor. change (Qeq_bool 100000 0) with false. cbv iota.
  rewrite Qfloor_div_100000. reflexivity.
Qed.

Lemma floor_of_remainder (q : Q) :
  (0 <= q)%Q ->
  Math_floor (rem (Num q) (Num 100000)) = Int (Qfloor q mod 100000).
Proof.
  intros H. unfold rem, Math_floor. change (Qeq_bool 100000 0) with false.
  cbv iota. f_equal.
  assert (Hq : (0 <= q / 100000)%Q).
  { apply Qle_shift_div_l; [reflexivity | lra]. }
  rewrite (Qtrunc_nonneg _ Hq), Qfloor_div_100000.
  assert (He : (q - 100000 * inject_Z (Qfloor q / 100000)
                == q - inject_Z (100000 * (Qfloor q / 100000)))%Q).
  { rewrite inject_Z_mult. reflexivity. }
  rewrite He, Qfloor_minus_Z. symmetry. apply Z.mod_eq. lia.
Qed.

Lemma Qfloor_bounds (q hi : Q) (k : Z) :
  (0 <= q)%Q -> (q <= hi)%Q -> Qfloor hi = k -> 0 <= Qfloor q <= k.
Proof.
  intros H0 H1 Hk. split.
  - change 0 with (Qfloor 0). apply Qfloor_resp_le. exact H0.
  - rewrite <- Hk. apply Qfloor_resp_le. exact H1.
Qed.

Lemma array_get_tile (x y : Z) :
  0 <= x -> 0 <= y ->
  match array_get prefixes (Int y) with
  | Some row => array_get row (Int x)
  | None => None
  end = tile (Z.to_nat x) (Z.to_nat y).
Proof.
  intros Hx Hy. unfold array_get, tile.
  destruct (Z.ltb_spec y 0); [lia|]. destruct (Z.ltb_spec x 0); [lia|].
  reflexivity.
Qed.

Lemma tiles_checked :
  forallb (fun y => forallb (fun x => tile_decodes x y) (seq 0 7)) (seq 0 13)
  = true.
Proof. vm_compute. reflexivity. Qed.

Lemma tile_decodes_all (x y : nat) :
  (x < 7)%nat -> (y < 13)%nat -> tile_decodes x y = true.
Proof.
  intros Hx Hy. pose proof tiles_checked as H.
  rewrite forallb_forall in H.
  assert (Hin : In y (seq 0 13)) by (apply in_seq; lia).
  specialize (H y Hin). rewrite forallb_forall in H.
  apply H. apply in_seq. lia.
Qed.

(** Within the bounds [toGridRef] returns the table entry of the tile and
    the five-digit residuals of the whole metres. *)
Lemma toGridRef_in_bounds (e n : Q) :
  in_projected_bounds e n ->
  exists l1 l2 : ascii,
    tile (Z.to_nat (Qfloor e / 100000)) (Z.to_nat (Qfloor n / 100000))
    = Some [l1; l2]
    /\ (0 <= Qfloor e / 100000 <= 6 /\ 0 <= Qfloor n / 100000 <= 12)
    /\ tile_decodes (Z.to_nat (Qfloor e / 100000))
                    (Z.to_nat (Qfloor n / 100000)) = true
    /\ toGridRef (projected (Num e) (Num n))
       = Normal (Populated
           {| text := written l1 l2 (fixed 5 (Qfloor e mod 100000))
                                    (fixed 5 (Qfloor n mod 100000));
              html := [l1; l2] ++ lit "&thinsp;"
                      ++ fixed 5 (Qfloor e mod 100000) ++ lit "&thinsp;"
                      ++ fixed 5 (Qfloor n mod 100000);
              letters := Some [l1; l2];
              eastings := fixed 5 (Qfloor e mod 100000);
              northings := fixed 5 (Qfloor n mod 100000) |}).
Proof.
  intros Hb. pose proof Hb as [[He0 He1] [Hn0 Hn1]].
  apply checkBounds_projected in Hb.
  pose proof (Qfloor_bounds e _ 699999 He0 He1 eq_refl) as Hfe.
  pose proof (Qfloor_bounds n _ 1299999 Hn0 Hn1 eq_refl) as Hfn.
  assert (Hx : 0 <= Qfloor e / 100000 <= 6).
  { split; [apply Z.div_pos; lia|].
    apply Z.lt_succ_r, Z.div_lt_upper_bound; lia. }
  assert (Hy : 0 <= Qfloor n / 100000 <= 12).
  { split; [apply Z.div_pos; lia|].
    apply Z.lt_succ_r, Z.div_lt_upper_bound; lia. }
  pose proof (tile_decodes_all (Z.to_nat (Qfloor e / 100000))
                (Z.to_nat (Qfloor n / 100000)) ltac:(lia) ltac:(lia)) as Ht.
  pose proof Ht as Ht'. unfold tile_decodes in Ht'.
  destruct (tile _ _) as [[|l1 [|l2 [|? ?]]]|] eqn:Htile; try discriminate.
  exists l1, l2. split; [reflexivity|]. split; [auto|]. split; [exact Ht|].
  unfold toGridRef. rewrite Hb. cbn [negb projected ea no get].
  rewrite !floor_of_quotient.
  pose proof (array_get_tile _ _ (proj1 Hx) (proj1 Hy)) as Hget.
  rewrite Htile in Hget.
  destruct (array_get prefixes (Int (Qfloor n / 100000))) as [row|];
    [|discriminate].
  rewrite Hget. rewrite !floor_of_remainder by assumption.
  rewrite !padStart_String_of
    by (try (apply Z.mod_pos_bound); try lia).
  reflexivity.
Qed.

(** ** References in their written form *)

Section Written.

Variables (l1 l2 : ascii) (d1 d2 : jsstring).
Hypothesis first_ok : mem l1 firstLetters = true.
Hypothesis second_ok : mem l2 gridLetters = true.
Hypothesis group1_digits : digits d1.
Hypothesis group2_digits : digits d2.
Hypothesis group1_length : (1 <= length d1 <= 5)%nat.
Hypothesis group2_length : (1 <= length d2 <= 5)%nat.

Lemma written_trim : trim (written l1 l2 d1 d2) = written l1 l2 d1 d2.
Proof.
  destruct (digits_last d2 group2_digits (proj1 group2_length))
    as [d' [z [-> Hz]]].
  unfold written.
  replace (l1 :: l2 :: " "%char :: d1 ++ " "%char :: d' ++ [z])
    with (l1 :: (l2 :: " "%char :: d1 ++ " "%char :: d') ++ [z])
    by (cbn [app]; rewrite <- app_assoc; reflexivity).
  apply trim_id; [|exact Hz].
  apply letter_not_blank, first_letter_is_letter, first_ok.
Qed.

Lemma written_upper : toUpperCase (written l1 l2 d1 d2) = written l1 l2 d1 d2.
Proof.
  unfold written.
  rewrite !toUpperCase_cons, toUpperCase_app, toUpperCase_cons.
  rewrite !toUpperCase_digits by assumption.
  rewrite (letter_upper l1 (first_letter_is_letter l1 first_ok)).
  rewrite (letter_upper l2 second_ok). reflexivity.
Qed.

Lemma written_matches : matches_pattern (written l1 l2 d1 d2).
Proof.
  change (written l1 l2 d1 d2)
    with (l1 :: l2 :: [" "%char] ++ d1 ++ [" "%char] ++ d2).
  constructor; auto.
Qed.

Lemma written_stripped :
  remove_spaces (written l1 l2 d1 d2) = l1 :: l2 :: d1 ++ d2.
Proof.
  unfold written. cbn [remove_spaces filter].
  rewrite (letter_not_space l1 (first_letter_is_letter l1 first_ok)).
  rewrite (letter_not_space l2 second_ok). cbn [negb Ascii.eqb].
  change (Ascii.eqb " " " ") with true. cbn [negb].
  fold (remove_spaces (d1 ++ " "%char :: d2)).
  rewrite remove_spaces_app. cbn [remove_spaces filter].
  change (Ascii.eqb " " " ") with true. cbn [negb].
  fold (remove_spaces d1) (remove_spaces d2).
  rewrite !remove_spaces_digits by assumption. reflexivity.
Qed.

Lemma written_valid :
  valid (_validateGridRef (written l1 l2 d1 d2))
  = Nat.even (length d1 + length d2).
Proof.
  destruct (Nat.even (length d1 + length d2)) eqn:He.
  - apply valid_validateGridRef. rewrite written_upper, written_stripped.
    split; [|exact written_matches].
    cbn [length]. rewrite length_app. exact He.
  - destruct (valid _) eqn:Hv; [|reflexivity].
    apply valid_validateGridRef in Hv. destruct Hv as [Hv _].
    rewrite written_stripped in Hv. cbn [length] in Hv.
    rewrite length_app in Hv.
    change (Nat.even (S (S (length d1 + length d2))))
      with (Nat.even (length d1 + length d2)) in Hv. congruence.
Qed.

Lemma fromGridRef_written_halves (i : nat) :
  (length d1 + length d2 = 2 * i)%nat ->
  fromGridRef (written l1 l2 d1 d2)
  = Populated (metres
      (major_easting l1 + minor_easting l2
       + ToNumber (firstn i (d1 ++ d2)) * 10 ^ (5 - Z.of_nat i))
      (major_northing l1 + minor_northing l2
       + ToNumber (skipn i (d1 ++ d2)) * 10 ^ (5 - Z.of_nat i))).
Proof.
  intros Hl. apply fromGridRef_valid.
  - rewrite written_trim, written_valid, Hl.
    apply Nat.even_spec. exists i. reflexivity.
  - rewrite written_trim, written_upper. apply written_stripped.
  - rewrite length_app. exact Hl.
  - lia.
Qed.

Lemma fromGridRef_written (i : nat) :
  length d1 = i -> length d2 = i ->
  fromGridRef (written l1 l2 d1 d2)
  = Populated (metres
      (major_easting l1 + minor_easting l2
       + ToNumber d1 * 10 ^ (5 - Z.of_nat i))
      (major_northing l1 + minor_northing l2
       + ToNumber d2 * 10 ^ (5 - Z.of_nat i))).
Proof.
  intros H1 H2. rewrite (fromGridRef_written_halves i) by lia.
  rewrite firstn_app, skipn_app, H1, Nat.sub_diag.
  rewrite firstn_all2, skipn_all2 by lia.
  cbn [firstn skipn app]. rewrite app_nil_r. reflexivity.
Qed.

End Written.

(** ** Unequal digit groups *)

(** C2, as stated, fails: "NY 37 0369" has groups of 2 and of 4 digits
    and is decoded, its six digits split into 370 and 369. *)
Lemma unequal_groups_accepted :
  length (lit "37") <> length (lit "0369")
  /\ valid (_validateGridRef (trim (lit "NY 37 0369"))) = true
  /\ fromGridRef (lit "NY 37 0369") = Populated (metres 337000 536900).
Proof.
  split; [discriminate|]. split; vm_compute; reflexivity.
Qed.

(** C2, amended.  A reference written with letters of the pattern and two
    digit groups of 1 to 5 digits is rejected, by the format check, exactly
    when the combined number of digits is odd; so groups whose lengths
    differ in parity, as in "NY 373 0369", give the empty object, and
    groups of unequal lengths of the same parity are accepted. *)
Theorem odd_digit_count_rejected (l1 l2 : ascii) (d1 d2 : jsstring) :
  mem l1 firstLetters = true -> mem l2 gridLetters = true ->
  digits d1 -> digits d2 ->
  (1 <= length d1 <= 5)%nat -> (1 <= length d2 <= 5)%nat ->
  (valid (_validateGridRef (trim (written l1 l2 d1 d2))) = false
   <-> Nat.odd (length d1 + length d2) = true)
  /\ (fromGridRef (written l1 l2 d1 d2) = EmptyObject
      <-> Nat.odd (length d1 + length d2) = true).
Proof.
  intros H1 H2 Hd1 Hd2 Hn1 Hn2.
  assert (Hv : valid (_validateGridRef (trim (written l1 l2 d1 d2))) = false
               <-> Nat.odd (length d1 + length d2) = true).
  { rewrite written_trim, written_valid by assumption.
    rewrite <- Nat.negb_even, negb_true_iff. reflexivity. }
  split; [exact Hv|]. rewrite <- Hv.
  apply fromGridRef_empty_iff.
Qed.

Lemma odd_digit_count_rejected_witness :
  (valid (_validateGridRef (trim (lit "NY 373 0369"))) = false
   <-> Nat.odd 7 = true)
  /\ (fromGridRef (lit "NY 373 0369") = EmptyObject <-> Nat.odd 7 = true).
Proof.
  apply (odd_digit_count_rejected "N" "Y" (lit "373") (lit "0369"));
    try reflexivity; try (cbn; lia);
    repeat constructor.
Defined.

(** ** Encoding within the bounds *)

Ltac floor_of_integers :=
  repeat match goal with
         | H : context [Qfloor (inject_Z ?z)] |- _ => rewrite (Qfloor_Z z) in H
         end.

Lemma metres_in_bounds (e n : Z) :
  valid (_checkBounds (metres e n)) = true
  <-> (0 <= e <= 699999) /\ (0 <= n <= 1299999).
Proof.
  unfold metres. rewrite checkBounds_projected.
  unfold in_projected_bounds, Qle, inject_Z. cbn [Qnum Qden]. lia.
Qed.

Lemma jsstring_eqb_eq (s t : jsstring) : jsstring_eqb s t = true -> s = t.
Proof.
  unfold jsstring_eqb. destruct (list_eq_dec ascii_dec s t); congruence.
Qed.

Lemma split_at_corner (c r : Z) :
  c mod 100000 = 0 -> 0 <= r < 100000 ->
  (c + r) / 100000 = c / 100000 /\ (c + r) mod 100000 = r.
Proof.
  intros Hc Hr. apply Z.mod_divide in Hc; [|lia]. destruct Hc as [q ->].
  rewrite Z.div_mul by lia. split.
  - symmetry. apply Z.div_unique with (r := r); lia.
  - symmetry. apply Z.mod_unique with (q := q); lia.
Qed.

(** Encoding what a letter pair and two five-digit groups decode to gives
    the pair and the groups back, when the coordinate is within bounds. *)
Lemma toGridRef_of_decoded (l1 l2 : ascii) (g1 g2 : jsstring) :
  mem l1 firstLetters = true -> mem l2 gridLetters = true ->
  digits g1 -> digits g2 -> length g1 = 5%nat -> length g2 = 5%nat ->
  let E := major_easting l1 + minor_easting l2 + ToNumber g1 in
  let N := major_northing l1 + minor_northing l2 + ToNumber g2 in
  valid (_checkBounds (metres E N)) = true ->
  exists r,
    toGridRef (metres E N) = Normal (Populated r)
    /\ text r = written l1 l2 g1 g2
    /\ letters r = Some [l1; l2]
    /\ eastings r = g1 /\ northings r = g2.
Proof.
  intros H1 H2 Hd1 Hd2 Hn1 Hn2 E N Hv.
  pose proof (proj1 (metres_in_bounds E N) Hv) as [HE HN].
  destruct (corner_range l1 l2 H1 H2) as [[Hce Hcem] [Hcn Hcnm]].
  pose proof (ToNumber_bounds g1 Hd1) as Hb1. rewrite Hn1 in Hb1.
  pose proof (ToNumber_bounds g2 Hd2) as Hb2. rewrite Hn2 in Hb2.
  change (10 ^ Z.of_nat 5) with 100000 in Hb1, Hb2.
  destruct (split_at_corner _ _ Hcem Hb1) as [Hqe Hre].
  destruct (split_at_corner _ _ Hcnm Hb2) as [Hqn Hrn].
  fold E in Hqe, Hre. fold N in Hqn, Hrn.
  pose proof (pair_encodes_all l1 l2 H1 H2) as Hp. unfold pair_encodes in Hp.
  rewrite !andb_true_iff in Hp. destruct Hp as [_ Hp].
  assert (Hin : (major_easting l1 + minor_easting l2 <? 700000)
                && (major_northing l1 + minor_northing l2 <? 1300000) = true).
  { apply andb_true_iff. split; apply Z.ltb_lt; lia. }
  rewrite Hin, <- Hqe, <- Hqn in Hp.
  unfold metres in Hv. apply checkBounds_projected in Hv. unfold metres.
  destruct (toGridRef_in_bounds _ _ Hv) as [k1 [k2 [Ht [_ [_ Hr]]]]].
  floor_of_integers. rewrite Ht in Hp.
  apply jsstring_eqb_eq in Hp. injection Hp as -> ->.
  rewrite Hre, Hrn in Hr.
  assert (F1 : fixed 5 (ToNumber g1) = g1)
    by (rewrite <- Hn1; apply fixed_ToNumber; assumption).
  assert (F2 : fixed 5 (ToNumber g2) = g2)
    by (rewrite <- Hn2; apply fixed_ToNumber; assumption).
  rewrite F1, F2 in Hr.
  eexists. split; [exact Hr|]. repeat split.
Qed.

(** ** The round trips *)

(** C1.  For a coordinate of whole metres within the projected bounds,
    decoding the text that [toGridRef] returns gives the coordinate
    back. *)
Theorem encode_decode_roundtrip (e n : Z) :
  valid (_checkBounds (metres e n)) = true ->
  exists r,
    toGridRef (metres e n) = Normal (Populated r)
    /\ fromGridRef (text r) = Populated (metres e n).
Proof.
  intros Hv. pose proof (proj1 (metres_in_bounds e n) Hv) as [He Hn].
  unfold metres in Hv. apply checkBounds_projected in Hv.
  destruct (toGridRef_in_bounds _ _ Hv) as [l1 [l2 [Ht [[Hx Hy] [Hd Hr]]]]].
  floor_of_integers.
  unfold tile_decodes in Hd. rewrite Ht in Hd.
  rewrite !andb_true_iff in Hd. destruct Hd as [[[H1 H2] Hce] Hcn].
  apply Z.eqb_eq in Hce, Hcn. rewrite Z2Nat.id in Hce, Hcn by lia.
  eexists. split; [exact Hr|]. cbn [text].
  assert (Hlen : forall z, (1 <= length (fixed 5 z) <= 5)%nat)
    by (intros z; rewrite fixed_length; lia).
  rewrite (fromGridRef_written l1 l2 (fixed 5 (e mod 100000))
             (fixed 5 (n mod 100000)) H1 H2 (fixed_digits _ _)
             (fixed_digits _ _) (Hlen _) (Hlen _) 5
             (fixed_length _ _) (fixed_length _ _)).
  rewrite !ToNumber_fixed by (apply Z.mod_pos_bound; lia).
  change (10 ^ Z.of_nat 5) with 100000. change (10 ^ (5 - Z.of_nat 5)) with 1.
  rewrite !Z.mod_mod by lia. rewrite Hce, Hcn, !Z.mul_1_r.
  rewrite <- !Z.div_mod by lia. reflexivity.
Qed.

Lemma encode_decode_roundtrip_witness :
  valid (_checkBounds (metres 651409 313177)) = true
  /\ exists r,
       toGridRef (metres 651409 313177) = Normal (Populated r)
       /\ fromGridRef (text r) = Populated (metres 651409 313177).
Proof.
  split; [reflexivity|].
  apply (encode_decode_roundtrip 651409 313177). reflexivity.
Defined.

Lemma Populated_inj {A : Type} (a b : A) : Populated a = Populated b -> a = b.
Proof. congruence. Qed.

(** C3, as stated, fails: "TZ 00000 00000" passes the format check with
    five digits in each group and decodes to easting 900000, which
    [toGridRef] declines. *)
Lemma reencoding_declined_outside_extent :
  valid (_validateGridRef (trim (lit "TZ 00000 00000"))) = true
  /\ fromGridRef (lit "TZ 00000 00000") = Populated (metres 900000 0)
  /\ toGridRef (metres 900000 0) = Normal EmptyObject.
Proof. repeat split; vm_compute; reflexivity. Qed.

(** A text in lower case, or without its spaces, is accepted too and
    comes back in the written form. *)
Lemma reencoding_normalises_text :
  fromGridRef (lit "ny3729703695") = Populated (metres 337297 503695)
  /\ exists r,
       toGridRef (metres 337297 503695) = Normal (Populated r)
       /\ text r = lit "NY 37297 03695".
Proof.
  split; [vm_compute; reflexivity|].
  eexists. split; [vm_compute; reflexivity|]. reflexivity.
Qed.

(** C3, amended.  For a full-precision reference in its written form
    (two letters of the pattern, a space, five digits, a space, five
    digits) whose decoded coordinate lies within the projected bounds,
    encoding the decoded coordinate reproduces the text. *)
Theorem decode_encode_roundtrip
  (l1 l2 : ascii) (d1 d2 : jsstring) (c : coordinates) :
  mem l1 firstLetters = true -> mem l2 gridLetters = true ->
  digits d1 -> digits d2 -> length d1 = 5%nat -> length d2 = 5%nat ->
  fromGridRef (written l1 l2 d1 d2) = Populated c ->
  valid (_checkBounds c) = true ->
  exists r,
    toGridRef c = Normal (Populated r) /\ text r = written l1 l2 d1 d2.
Proof.
  intros H1 H2 Hd1 Hd2 Hn1 Hn2 Hc Hv.
  rewrite (fromGridRef_written l1 l2 d1 d2 H1 H2 Hd1 Hd2
             ltac:(lia) ltac:(lia) 5 Hn1 Hn2) in Hc.
  change (10 ^ (5 - Z.of_nat 5)) with 1 in Hc. rewrite !Z.mul_1_r in Hc.
  apply Populated_inj in Hc. subst c.
  destruct (toGridRef_of_decoded l1 l2 d1 d2 H1 H2 Hd1 Hd2 Hn1 Hn2 Hv)
    as [r [Hr [Ht _]]].
  exists r. auto.
Qed.

Lemma decode_encode_roundtrip_witness :
  exists r,
    toGridRef (metres 337297 503695) = Normal (Populated r)
    /\ text r = written "N" "Y" (lit "37297") (lit "03695").
Proof.
  apply (decode_encode_roundtrip "N" "Y" (lit "37297") (lit "03695")
           (metres 337297 503695));
    try reflexivity; repeat constructor.
Defined.

(** C7, as stated, fails: "TZ 0 0" passes the format check with one
    digit in each group and decodes to easting 900000, which [toGridRef]
    declines, so there are no eastings to compare. *)
Lemma truncated_reference_declined :
  valid (_validateGridRef (trim (lit "TZ 0 0"))) = true
  /\ fromGridRef (lit "TZ 0 0") = Populated (metres 900000 0)
  /\ toGridRef (metres 900000 0) = Normal EmptyObject.
Proof. repeat split; vm_compute; reflexivity. Qed.

(** The digits of a text need not come back in a second way: the sharp s
    followed by " 111" passes the format check with three digits and
    decodes within the bounds, to a coordinate whose encoding has the
    eastings 03162 and the northings 34785. *)
Lemma sharp_s_reencoded :
  fromGridRef (sharp_s :: lit " 111")
  = Populated (projected (Root10 200000 1000) (Root10 100000 11000))
  /\ exists r,
       toGridRef (projected (Root10 200000 1000) (Root10 100000 11000))
       = Normal (Populated r)
       /\ text r = lit "SS 03162 34785".
Proof.
  split; [vm_compute; reflexivity|].
  eexists. split; [vm_compute; reflexivity|]. reflexivity.
Qed.

Lemma padded_group (g : jsstring) (i : nat) :
  digits g -> length g = i -> (i <= 5)%nat ->
  let g5 := g ++ repeat "0"%char (5 - i) in
  digits g5 /\ length g5 = 5%nat
  /\ ToNumber g5 = ToNumber g * 10 ^ (5 - Z.of_nat i).
Proof.
  intros Hg Hl Hi g5. subst g5. split; [|split].
  - apply digits_app. split; [exact Hg | apply digits_zeros].
  - rewrite length_app, repeat_length. lia.
  - rewrite ToNumber_app, ToNumber_zeros, repeat_length, Z.add_0_r.
    replace (Z.of_nat (5 - i)) with (5 - Z.of_nat i) by lia. reflexivity.
Qed.

(** C7, amended.  For a text that passes the format check and holds
    [2 i] digits, and whose decoded coordinate lies within the projected
    bounds, the encoding of that coordinate has five-digit eastings and
    northings that begin with the first [i] and with the last [i] digits
    of the text. *)
Theorem truncated_reference_prefix
  (gridref : jsstring) (l1 l2 : ascii) (ds : jsstring) (i : nat)
  (c : coordinates) :
  valid (_validateGridRef (trim gridref)) = true ->
  remove_spaces (toUpperCase (trim gridref)) = l1 :: l2 :: ds ->
  length ds = (2 * i)%nat ->
  fromGridRef gridref = Populated c ->
  valid (_checkBounds c) = true ->
  exists r : GridReference,
    toGridRef c = Normal (Populated r)
    /\ (length (eastings r) = 5%nat /\ is_prefix (firstn i ds) (eastings r))
    /\ (length (northings r) = 5%nat
        /\ is_prefix (skipn i ds) (northings r)).
Proof.
  intros Hv Href Hl Hc Hb.
  destruct (even_reference gridref l1 l2 ds i Hv Href Hl)
    as [H1 [H2 [Hd Hi]]].
  rewrite (fromGridRef_valid gridref l1 l2 ds i Hv Href Hl (proj2 Hi)) in Hc.
  apply Populated_inj in Hc. subst c.
  destruct (digits_halves ds i Hd) as [Hd1 Hd2].
  assert (Hl1 : length (firstn i ds) = i) by (rewrite length_firstn; lia).
  assert (Hl2 : length (skipn i ds) = i) by (rewrite length_skipn; lia).
  destruct (padded_group _ i Hd1 Hl1 (proj2 Hi)) as [Hp1 [Hq1 Hv1]].
  destruct (padded_group _ i Hd2 Hl2 (proj2 Hi)) as [Hp2 [Hq2 Hv2]].
  rewrite <- Hv1, <- Hv2 in Hb |- *.
  destruct (toGridRef_of_decoded l1 l2 _ _ H1 H2 Hp1 Hp2 Hq1 Hq2 Hb)
    as [r [Hr [_ [_ [He Hn]]]]].
  exists r.
  split; [exact Hr|]. rewrite He, Hn.
  split; (split; [assumption | eexists; reflexivity]).
Qed.

Lemma truncated_reference_prefix_witness :
  exists r : GridReference,
    toGridRef (metres 337200 503600) = Normal (Populated r)
    /\ (length (eastings r) = 5%nat
        /\ is_prefix (firstn 3 (lit "372036")) (eastings r))
    /\ (length (northings r) = 5%nat
        /\ is_prefix (skipn 3 (lit "372036")) (northings r)).
Proof.
  apply (truncated_reference_prefix (lit "NY 372 036")
           "N"%char "Y"%char (lit "372036") 3 (metres 337200 503600));
    reflexivity.
Defined.

(** ** The table lookup *)

(** C8.  An input can pass the bounds check without being a coordinate
    within the projected bounds: a NaN northing beside an easting within
    its bounds, an object with [lat] and [lng], an object with neither
    pair.  The row index is then NaN, [prefixes[y]] is undefined, and
    [toGridRef] raises a TypeError by reading [prefixes[y][x]]. *)
Theorem toGridRef_raises_TypeError :
  (valid (_checkBounds (projected (Num 1) NaN)) = true
   /\ toGridRef (projected (Num 1) NaN) = Throw TypeError)
  /\ (valid (_checkBounds (geographic (Num 54.4) (Num (-2.9)))) = true
      /\ toGridRef (geographic (Num 54.4) (Num (-2.9))) = Throw TypeError)
  /\ (valid (_checkBounds
               {| ea := None; no := None; lat := None; lng := None |}) = true
      /\ toGridRef {| ea := None; no := None; lat := None; lng := None |}
         = Throw TypeError).
Proof. repeat split; reflexivity. Qed.

(** * Further properties of the code *)

(** ** Encoding drops the fraction of a metre *)

Lemma Normal_inj {A : Type} (a b : A) : Normal a = Normal b -> a = b.
Proof. congruence. Qed.

Lemma floor_in_bounds (e n : Q) :
  in_projected_bounds e n ->
  in_projected_bounds (inject_Z (Qfloor e)) (inject_Z (Qfloor n)).
Proof.
  intros [[He0 He1] [Hn0 Hn1]].
  pose proof (Qfloor_bounds e _ 699999 He0 He1 eq_refl) as Hfe.
  pose proof (Qfloor_bounds n _ 1299999 Hn0 Hn1 eq_refl) as Hfn.
  apply checkBounds_projected. apply (metres_in_bounds (Qfloor e) (Qfloor n)).
  lia.
Qed.

Lemma tile_in_table (x y : nat) (l1 l2 : ascii) :
  tile x y = Some [l1; l2] -> pair_in_table l1 l2 = true.
Proof.
  unfold tile, pair_in_table. intros H.
  destruct (nth_error prefixes y) as [row|] eqn:Hrow; [|discriminate].
  apply existsb_exists. exists row. split; [eapply nth_error_In; eassumption|].
  apply existsb_exists. exists [l1; l2].
  split; [eapply nth_error_In; eassumption|].
  unfold jsstring_eqb. destruct (list_eq_dec ascii_dec [l1; l2] [l1; l2]);
    congruence.
Qed.

(** What [toGridRef] returns within the bounds, and what decoding its text
    gives. *)
Lemma encoded_and_decoded (e n : Q) :
  in_projected_bounds e n ->
  exists l1 l2 : ascii,
    mem l1 firstLetters = true /\ mem l2 gridLetters = true
    /\ pair_in_table l1 l2 = true
    /\ toGridRef (projected (Num e) (Num n))
       = Normal (Populated
           {| text := written l1 l2 (fixed 5 (Qfloor e mod 100000))
                                    (fixed 5 (Qfloor n mod 100000));
              html := [l1; l2] ++ lit "&thinsp;"
                      ++ fixed 5 (Qfloor e mod 100000) ++ lit "&thinsp;"
                      ++ fixed 5 (Qfloor n mod 100000);
              letters := Some [l1; l2];
              eastings := fixed 5 (Qfloor e mod 100000);
              northings := fixed 5 (Qfloor n mod 100000) |})
    /\ fromGridRef (written l1 l2 (fixed 5 (Qfloor e mod 100000))
                                  (fixed 5 (Qfloor n mod 100000)))
       = Populated (metres (Qfloor e) (Qfloor n)).
Proof.
  intros Hb.
  destruct (toGridRef_in_bounds _ _ Hb) as [l1 [l2 [Ht [[Hx Hy] [Hd Hr]]]]].
  pose proof (tile_in_table _ _ _ _ Ht) as Hin.
  unfold tile_decodes in Hd. rewrite Ht in Hd.
  rewrite !andb_true_iff in Hd. destruct Hd as [[[H1 H2] Hce] Hcn].
  apply Z.eqb_eq in Hce, Hcn. rewrite Z2Nat.id in Hce, Hcn by lia.
  exists l1, l2. split; [exact H1|]. split; [exact H2|].
  split; [exact Hin|]. split; [exact Hr|].
  assert (Hlen : forall z, (1 <= length (fixed 5 z) <= 5)%nat)
    by (intros z; rewrite fixed_length; lia).
  rewrite (fromGridRef_written l1 l2 (fixed 5 (Qfloor e mod 100000))
             (fixed 5 (Qfloor n mod 100000)) H1 H2 (fixed_digits _ _)
             (fixed_digits _ _) (Hlen _) (Hlen _) 5
             (fixed_length _ _) (fixed_length _ _)).
  rewrite !ToNumber_fixed by (apply Z.mod_pos_bound; lia).
  change (10 ^ Z.of_nat 5) with 100000. change (10 ^ (5 - Z.of_nat 5)) with 1.
  rewrite !Z.mod_mod by lia. rewrite Hce, Hcn, !Z.mul_1_r.
  rewrite <- !Z.div_mod by lia. reflexivity.
Qed.

(** X1.  Within the bounds [toGridRef] looks at whole metres only: a
    coordinate and its floor give the same result. *)
Theorem toGridRef_whole_metres (e n : Q) :
  valid (_checkBounds (projected (Num e) (Num n))) = true ->
  toGridRef (projected (Num e) (Num n))
  = toGridRef (metres (Qfloor e) (Qfloor n)).
Proof.
  intros Hv. apply checkBounds_projected in Hv.
  destruct (toGridRef_in_bounds _ _ Hv) as [l1 [l2 [Ht [_ [_ Hr]]]]].
  destruct (toGridRef_in_bounds _ _ (floor_in_bounds e n Hv))
    as [k1 [k2 [Ht' [_ [_ Hr']]]]].
  floor_of_integers. rewrite Ht in Ht'.
  assert (Hk : [l1; l2] = [k1; k2]) by congruence.
  unfold metres. rewrite Hr, Hr'.
  injection Hk as <- <-. reflexivity.
Qed.

Lemma toGridRef_whole_metres_witness :
  valid (_checkBounds (projected (Num 337297.86) (Num 503695.2))) = true
  /\ toGridRef (projected (Num 337297.86) (Num 503695.2))
     = toGridRef (metres 337297 503695).
Proof.
  split; [reflexivity|].
  apply (toGridRef_whole_metres 337297.86 503695.2). reflexivity.
Defined.

(** X2.  Whenever [toGridRef] returns a populated result for numeric
    easting and northing, its letters are a pair of the prefix table, its
    eastings and northings are five digits each, its text and html are
    built from these parts, and the text passes [_validateGridRef]. *)
Theorem toGridRef_result_well_formed (e n : Q) (r : GridReference) :
  toGridRef (projected (Num e) (Num n)) = Normal (Populated r) ->
  exists l1 l2 : ascii,
    letters r = Some [l1; l2] /\ pair_in_table l1 l2 = true
    /\ (digits (eastings r) /\ length (eastings r) = 5%nat)
    /\ (digits (northings r) /\ length (northings r) = 5%nat)
    /\ text r = [l1; l2] ++ lit " " ++ eastings r ++ lit " " ++ northings r
    /\ html r = [l1; l2] ++ lit "&thinsp;" ++ eastings r
                ++ lit "&thinsp;" ++ northings r
    /\ valid (_validateGridRef (text r)) = true.
Proof.
  intros Hr.
  destruct (valid (_checkBounds (projected (Num e) (Num n)))) eqn:Hv.
  - apply checkBounds_projected in Hv.
    destruct (encoded_and_decoded e n Hv) as [l1 [l2 [H1 [H2 [Hin [Hr' _]]]]]].
    rewrite Hr' in Hr. apply Normal_inj, Populated_inj in Hr. subst r.
    cbn [letters eastings northings text html].
    exists l1, l2. split; [reflexivity|]. split; [exact Hin|].
    split; [split; [apply fixed_digits | apply fixed_length]|].
    split; [split; [apply fixed_digits | apply fixed_length]|].
    split; [reflexivity|]. split; [reflexivity|].
    rewrite written_valid
      by (auto using fixed_digits; rewrite fixed_length; lia).
    rewrite !fixed_length. reflexivity.
  - unfold toGridRef in Hr. rewrite Hv in Hr. discriminate.
Qed.

Lemma toGridRef_result_well_formed_witness :
  exists r,
    toGridRef (projected (Num 651409) (Num 313177)) = Normal (Populated r)
    /\ exists l1 l2 : ascii,
         letters r = Some [l1; l2] /\ pair_in_table l1 l2 = true
         /\ valid (_validateGridRef (text r)) = true.
Proof.
  eexists. split; [vm_compute; reflexivity|].
  destruct (toGridRef_result_well_formed 651409 313177 _ eq_refl)
    as [l1 [l2 [H1 [H2 [_ [_ [_ [_ H7]]]]]]]].
  exists l1, l2. auto.
Defined.

(** X3.  For a coordinate within the bounds, whole metres or not, the
    text that [toGridRef] returns decodes to the floor of the coordinate:
    the south-west corner of its metre square. *)
Theorem encode_decode_floor (e n : Q) :
  valid (_checkBounds (projected (Num e) (Num n))) = true ->
  exists r,
    toGridRef (projected (Num e) (Num n)) = Normal (Populated r)
    /\ fromGridRef (text r) = Populated (metres (Qfloor e) (Qfloor n)).
Proof.
  intros Hv. apply checkBounds_projected in Hv.
  destruct (encoded_and_decoded e n Hv) as [l1 [l2 [_ [_ [_ [Hr Hd]]]]]].
  eexists. split; [exact Hr|]. exact Hd.
Qed.

Lemma encode_decode_floor_witness :
  valid (_checkBounds (projected (Num 699999.9) (Num 0.5))) = true
  /\ exists r,
       toGridRef (projected (Num 699999.9) (Num 0.5)) = Normal (Populated r)
       /\ fromGridRef (text r) = Populated (metres 699999 0).
Proof.
  split; [reflexivity|].
  apply (encode_decode_floor 699999.9 0.5). reflexivity.
Defined.

(** ** Decoding disregards case, surrounding blanks and inner spaces *)















(** With the sharp s it is otherwise: the sharp s followed by " 111" has
    the upper-case form of "SS 111"; that text is refused, having five
    characters other than spaces, and the text with the sharp s, having
    four, is accepted. *)
Lemma sharp_s_same_upper_case :
  toUpperCase (sharp_s :: lit " 111") = toUpperCase (lit "SS 111")
  /\ fromGridRef (lit "SS 111") = EmptyObject
  /\ fromGridRef (sharp_s :: lit " 111")
     = Populated (projected (Root10 200000 1000) (Root10 100000 11000)).
Proof. repeat split; vm_compute; reflexivity. Qed.

Lemma trimStart_blanks (s : jsstring) : blanks s -> trimStart s = [].
Proof.
  induction 1 as [|c s Hc _ IH]; [reflexivity|].
  cbn [trimStart]. rewrite Hc. exact IH.
Qed.

Lemma trimStart_blanks_app (pre s : jsstring) :
  blanks pre -> trimStart (pre ++ s) = trimStart s.
Proof.
  induction 1 as [|c pre Hc _ IH]; [reflexivity|].
  cbn [app trimStart]. rewrite Hc. exact IH.
Qed.

Lemma trimStart_app_blanks (s post : jsstring) :
  blanks post ->
  trimStart (s ++ post) = trimStart s
  \/ (trimStart s <> [] /\ trimStart (s ++ post) = trimStart s ++ post).
Proof.
  intros Hp. induction s as [|c s IH].
  - left. apply trimStart_blanks. exact Hp.
  - cbn [app trimStart]. destruct (is_blank c); [exact IH|].
    right. split; [discriminate | reflexivity].
Qed.

Lemma blanks_rev (s : jsstring) : blanks s -> blanks (rev s).
Proof. apply Forall_rev. Qed.

Lemma trimEnd_app_blanks (s post : jsstring) :
  blanks post -> trimEnd (s ++ post) = trimEnd s.
Proof.
  intros Hp. unfold trimEnd. rewrite rev_app_distr.
  rewrite trimStart_blanks_app by (apply blanks_rev; exact Hp). reflexivity.
Qed.

Lemma trim_surrounded (pre g post : jsstring) :
  blanks pre -> blanks post -> trim (pre ++ g ++ post) = trim g.
Proof.
  intros Hpre Hpost. unfold trim.
  rewrite trimStart_blanks_app by exact Hpre.
  destruct (trimStart_app_blanks g post Hpost) as [-> | [_ ->]];
    [reflexivity|].
  apply trimEnd_app_blanks. exact Hpost.
Qed.

(** X5.  Blanks (spaces, tabs, line ends) before and after a text do not
    change what [fromGridRef] makes of it. *)
Theorem fromGridRef_ignores_surrounding_blanks (pre g post : jsstring) :
  blanks pre -> blanks post ->
  fromGridRef (pre ++ g ++ post) = fromGridRef g.
Proof.
  intros Hpre Hpost. unfold fromGridRef.
  rewrite trim_surrounded by assumption. reflexivity.
Qed.

Lemma fromGridRef_ignores_surrounding_blanks_witness :
  fromGridRef (lit "  " ++ lit "TG 51409 13177" ++ [ascii_of_nat 9; ascii_of_nat 10])
  = fromGridRef (lit "TG 51409 13177").
Proof.
  apply (fromGridRef_ignores_surrounding_blanks (lit "  ")
           (lit "TG 51409 13177") [ascii_of_nat 9; ascii_of_nat 10]);
    repeat constructor.
Defined.

Section Parts.

Variables (l1 l2 : ascii) (sp1 d1 sp2 d2 : jsstring).
Hypothesis first_ok : mem l1 firstLetters = true.
Hypothesis second_ok : mem l2 gridLetters = true.
Hypothesis gap1 : optional_gap sp1.
Hypothesis gap2 : optional_gap sp2.
Hypothesis group1_digits : digits d1.
Hypothesis group2_digits : digits d2.
Hypothesis group1_length : (1 <= length d1 <= 5)%nat.
Hypothesis group2_length : (1 <= length d2 <= 5)%nat.

Lemma parts_trim :
  trim (l1 :: l2 :: sp1 ++ d1 ++ sp2 ++ d2) = l1 :: l2 :: sp1 ++ d1 ++ sp2 ++ d2.
Proof.
  destruct (digits_last d2 group2_digits (proj1 group2_length))
    as [d' [z [-> Hz]]].
  replace (l1 :: l2 :: sp1 ++ d1 ++ sp2 ++ d' ++ [z])
    with (l1 :: (l2 :: sp1 ++ d1 ++ sp2 ++ d') ++ [z])
    by (cbn [app]; rewrite <- !app_assoc; reflexivity).
  apply trim_id; [|exact Hz].
  apply letter_not_blank, first_letter_is_letter, first_ok.
Qed.

Lemma gap_upper (sp : jsstring) : optional_gap sp -> toUpperCase sp = sp.
Proof. intros [-> | ->]; reflexivity. Qed.

Lemma parts_upper :
  toUpperCase (l1 :: l2 :: sp1 ++ d1 ++ sp2 ++ d2)
  = l1 :: l2 :: sp1 ++ d1 ++ sp2 ++ d2.
Proof.
  rewrite !toUpperCase_cons, !toUpperCase_app.
  rewrite (toUpperCase_digits d1), (toUpperCase_digits d2),
    (gap_upper sp1), (gap_upper sp2) by assumption.
  rewrite (letter_upper l1 (first_letter_is_letter l1 first_ok)).
  rewrite (letter_upper l2 second_ok). reflexivity.
Qed.

Lemma parts_valid :
  valid (_validateGridRef (l1 :: l2 :: sp1 ++ d1 ++ sp2 ++ d2))
  = Nat.even (length d1 + length d2).
Proof.
  assert (Hs : remove_spaces (l1 :: l2 :: sp1 ++ d1 ++ sp2 ++ d2)
               = l1 :: l2 :: d1 ++ d2)
    by (apply stripped_parts; first [assumption | exact gap1 | exact gap2]).
  destruct (Nat.even (length d1 + length d2)) eqn:He.
  - apply valid_validateGridRef. rewrite parts_upper, Hs.
    split; [|constructor; first [assumption | exact gap1 | exact gap2]].
    cbn [length]. rewrite length_app. exact He.
  - destruct (valid _) eqn:Hv; [|reflexivity].
    apply valid_validateGridRef in Hv. destruct Hv as [Hv _].
    rewrite Hs in Hv. cbn [length] in Hv. rewrite length_app in Hv.
    change (Nat.even (S (S (length d1 + length d2))))
      with (Nat.even (length d1 + length d2)) in Hv. congruence.
Qed.

Lemma parts_decoded :
  fromGridRef (l1 :: l2 :: sp1 ++ d1 ++ sp2 ++ d2)
  = if Nat.even (length d1 + length d2)
    then
      let i := ((length d1 + length d2) / 2)%nat in
      Populated (metres
        (major_easting l1 + minor_easting l2
         + ToNumber (firstn i (d1 ++ d2)) * 10 ^ (5 - Z.of_nat i))
        (major_northing l1 + minor_northing l2
         + ToNumber (skipn i (d1 ++ d2)) * 10 ^ (5 - Z.of_nat i)))
    else EmptyObject.
Proof.
  assert (Hs : remove_spaces (l1 :: l2 :: sp1 ++ d1 ++ sp2 ++ d2)
               = l1 :: l2 :: d1 ++ d2)
    by (apply stripped_parts; first [assumption | exact gap1 | exact gap2]).
  destruct (Nat.even (length d1 + length d2)) eqn:He.
  - cbv zeta. apply fromGridRef_valid.
    + rewrite parts_trim, parts_valid. exact He.
    + rewrite parts_trim, parts_upper. exact Hs.
    + rewrite length_app. apply Nat.even_spec in He. destruct He as [k ->].
      rewrite Nat.mul_comm, Nat.div_mul by lia. lia.
    + apply Nat.Div0.div_le_upper_bound. lia.
  - apply fromGridRef_invalid. rewrite parts_trim, parts_valid. exact He.
Qed.

End Parts.

(** X6.  The spaces of a reference carry no meaning: with or without a
    space after the letters and between the digit groups, a text decodes
    as the text without spaces does, the digits being split in half. *)
Theorem fromGridRef_ignores_inner_spaces
  (l1 l2 : ascii) (sp1 d1 sp2 d2 : jsstring) :
  mem l1 firstLetters = true -> mem l2 gridLetters = true ->
  optional_gap sp1 -> optional_gap sp2 ->
  digits d1 -> digits d2 ->
  (1 <= length d1 <= 5)%nat -> (1 <= length d2 <= 5)%nat ->
  fromGridRef (l1 :: l2 :: sp1 ++ d1 ++ sp2 ++ d2)
  = fromGridRef (l1 :: l2 :: d1 ++ d2).
Proof.
  intros H1 H2 G1 G2 Hd1 Hd2 Hn1 Hn2.
  rewrite (parts_decoded l1 l2 sp1 d1 sp2 d2) by assumption.
  change (l1 :: l2 :: d1 ++ d2) with (l1 :: l2 :: [] ++ d1 ++ [] ++ d2).
  rewrite (parts_decoded l1 l2 [] d1 [] d2)
    by first [assumption | left; reflexivity].
  reflexivity.
Qed.

Lemma fromGridRef_ignores_inner_spaces_witness :
  fromGridRef (lit "NY37297 03695") = fromGridRef (lit "NY3729703695").
Proof.
  apply (fromGridRef_ignores_inner_spaces "N" "Y" [] (lit "37297")
           (lit " ") (lit "03695") eq_refl eq_refl
           (or_introl eq_refl) (or_intror eq_refl));
    try (cbn; lia); repeat constructor.
Defined.

(** ** What the format check refuses *)







(** ** Decoded coordinates and the tile table *)

Lemma metres_inj (e n e' n' : Z) : metres e n = metres e' n' -> e = e' /\ n = n'.
Proof.
  unfold metres, projected, inject_Z. intros H. split; congruence.
Qed.

Lemma scaled_odd_group (ds : jsstring) (j : nat) :
  digits ds -> length ds = (2 * j + 1)%nat -> (1 <= j <= 4)%nat ->
  let m := 10 ^ (4 - Z.of_nat j) in
  0 <= ToNumber (firstn j ds) * m < 10000
  /\ 0 <= ToNumber (skipn j ds) * m < 100000.
Proof.
  intros Hd Hl Hj m.
  assert (H1 : 0 <= ToNumber (firstn j ds) < 10 ^ Z.of_nat j).
  { pose proof (ToNumber_bounds _ (proj1 (digits_halves ds j Hd))) as H.
    rewrite length_firstn in H.
    replace (Nat.min j (length ds)) with j in H by lia. exact H. }
  assert (H2 : 0 <= ToNumber (skipn j ds) < 10 * 10 ^ Z.of_nat j).
  { pose proof (ToNumber_bounds _ (proj2 (digits_halves ds j Hd))) as H.
    rewrite length_skipn in H.
    replace (length ds - j)%nat with (S j) in H by lia.
    rewrite Nat2Z.inj_succ, Z.pow_succ_r in H by lia. exact H. }
  assert (Hm : m * 10 ^ Z.of_nat j = 10000).
  { subst m. rewrite <- Z.pow_add_r by lia.
    replace (4 - Z.of_nat j + Z.of_nat j) with 4 by lia. reflexivity. }
  assert (Hmp : 0 < m) by (subst m; apply Z.pow_pos_nonneg; lia).
  split; nia.
Qed.

(** The shape, the value and the tile of what an accepted text decodes
    to: for an even number of digits a coordinate of whole metres in the
    tile of its letters; for an odd number, which a text that begins with
    the sharp s has, a coordinate in the tile SS with multiples of the
    square root of ten. *)
Lemma decoded_parts (g : jsstring) :
  valid (_validateGridRef (trim g)) = true ->
  exists (l1 l2 : ascii) (ds : jsstring),
    remove_spaces (toUpperCase (trim g)) = l1 :: l2 :: ds
    /\ mem l1 firstLetters = true /\ mem l2 gridLetters = true
    /\ digits ds
    /\ ((exists (i : nat) (re rn : Z),
           length ds = (2 * i)%nat /\ (1 <= i <= 5)%nat
           /\ re = ToNumber (firstn i ds) * 10 ^ (5 - Z.of_nat i)
           /\ rn = ToNumber (skipn i ds) * 10 ^ (5 - Z.of_nat i)
           /\ 0 <= re < 100000 /\ 0 <= rn < 100000
           /\ fromGridRef g
              = Populated (metres (fst (corner l1 l2) + re)
                                  (snd (corner l1 l2) + rn)))
        \/ (exists (j : nat) (be bn : Z),
              length ds = (2 * j + 1)%nat /\ (1 <= j <= 4)%nat
              /\ l1 = "S"%char /\ l2 = "S"%char
              /\ be = ToNumber (firstn j ds) * 10 ^ (4 - Z.of_nat j)
              /\ bn = ToNumber (skipn j ds) * 10 ^ (4 - Z.of_nat j)
              /\ 0 <= be < 10000 /\ 0 <= bn < 100000
              /\ fromGridRef g
                 = Populated (projected (root10_multiple 200000 be)
                                        (root10_multiple 100000 bn)))).
Proof.
  intros Hv.
  destruct (valid_reference _ Hv)
    as [l1 [l2 [ds [Href [H1 [H2 [Hd [Hn
         [[k1 [k2 [_ [_ [_ Hev]]]]] | [_ [-> [-> Hodd]]]]]]]]]]]].
  - apply Nat.even_spec in Hev. destruct Hev as [i Hl].
    assert (Hi : (1 <= i <= 5)%nat) by lia.
    destruct (scaled_group ds i Hd Hl Hi) as [[Hg1 Hg2] _].
    cbv zeta in Hg1, Hg2.
    exists l1, l2, ds. repeat (split; [assumption|]).
    left. exists i. eexists. eexists.
    repeat (split; [first [eassumption | reflexivity]|]).
    exact (fromGridRef_valid g l1 l2 ds i Hv Href Hl (proj2 Hi)).
  - apply Nat.odd_spec in Hodd. destruct Hodd as [j Hl].
    assert (Hj : (1 <= j <= 4)%nat) by lia.
    destruct (scaled_odd_group ds j Hd Hl Hj) as [Hg1 Hg2].
    cbv zeta in Hg1, Hg2.
    exists "S"%char, "S"%char, ds. repeat (split; [assumption|]).
    right. exists j. eexists. eexists.
    repeat (split; [first [eassumption | reflexivity]|]).
    exact (fromGridRef_valid_odd g "S" "S" ds j Hv Href Hl (proj2 Hj)).
Qed.

(** What a text that begins with the sharp s decodes to is within the
    projected bounds. *)
Lemma sharp_s_in_bounds (be bn : Z) :
  0 <= be < 10000 -> 0 <= bn < 100000 ->
  valid (_checkBounds (projected (root10_multiple 200000 be)
                                 (root10_multiple 100000 bn))) = true.
Proof.
  intros Hbe Hbn. unfold _checkBounds, projected.
  cbn [valid ea no hasOwnProperty get andb maxBounds bounds_projected
       fst snd].
  rewrite (root10_multiple_within 200000 be), (root10_multiple_within 100000 bn);
    try reflexivity; try lia;
    try (unfold Qle; cbn; lia);
    unfold Qle, Qmult, Qminus, Qplus, Qopp, inject_Z; cbn [Qnum Qden];
    change (Z.pos (10 * 1 * (10 * 1))) with 100;
    change (Z.pos (1 * 1 * 1)) with 1; nia.
Qed.

Lemma table_covers_bounds_checked :
  forallb (fun p => table_covers_bounds (fst p) (snd p)) letter_pairs = true.
Proof. vm_compute. reflexivity. Qed.

Lemma in_letter_pairs (l1 l2 : ascii) :
  mem l1 firstLetters = true -> mem l2 gridLetters = true ->
  In (l1, l2) letter_pairs.
Proof.
  intros H1 H2. apply mem_In in H1, H2. apply in_prod; assumption.
Qed.

Lemma pair_in_table_iff (l1 l2 : ascii) :
  mem l1 firstLetters = true -> mem l2 gridLetters = true ->
  pair_in_table l1 l2 = true
  <-> fst (corner l1 l2) < 700000 /\ snd (corner l1 l2) < 1300000.
Proof.
  intros H1 H2. pose proof table_covers_bounds_checked as H.
  rewrite forallb_forall in H.
  specialize (H (l1, l2) (in_letter_pairs l1 l2 H1 H2)).
  cbn [fst snd] in H. unfold table_covers_bounds in H.
  apply eqb_prop in H. rewrite H, andb_true_iff, !Z.ltb_lt. reflexivity.
Qed.

Lemma in_bounds_iff_in_table (l1 l2 : ascii) (re rn : Z) :
  mem l1 firstLetters = true -> mem l2 gridLetters = true ->
  0 <= re < 100000 -> 0 <= rn < 100000 ->
  valid (_checkBounds
           (metres (fst (corner l1 l2) + re) (snd (corner l1 l2) + rn))) = true
  <-> pair_in_table l1 l2 = true.
Proof.
  intros H1 H2 Hre Hrn.
  rewrite metres_in_bounds, (pair_in_table_iff l1 l2 H1 H2).
  destruct (corner_range l1 l2 H1 H2) as [[Hce Hcem] [Hcn Hcnm]].
  unfold corner. cbn [fst snd].
  apply Z.mod_divide in Hcem, Hcnm; try lia.
  destruct Hcem as [qe Hqe]. destruct Hcnm as [qn Hqn].
  rewrite Hqe, Hqn in *. lia.
Qed.

(** Whether what an accepted text decodes to is within the bounds is read
    off its letters. *)
Lemma decoded_bounds (g : jsstring) :
  valid (_validateGridRef (trim g)) = true ->
  exists (l1 l2 : ascii) (ds : jsstring) (c : coordinates),
    remove_spaces (toUpperCase (trim g)) = l1 :: l2 :: ds
    /\ fromGridRef g = Populated c
    /\ (valid (_checkBounds c) = true <-> pair_in_table l1 l2 = true).
Proof.
  intros Hv.
  destruct (decoded_parts g Hv)
    as [l1 [l2 [ds [Href [H1 [H2 [_ [[i [re [rn [_ [_ [_ [_ [Hre [Hrn Hdec]]]]]]]]]
         | [j [be [bn [_ [_ [E1 [E2 [_ [_ [Hbe [Hbn Hdec]]]]]]]]]]]]]]]]]]].
  - exists l1, l2, ds. eexists. split; [exact Href|].
    split; [exact Hdec|]. apply in_bounds_iff_in_table; assumption.
  - subst l1 l2. exists "S"%char, "S"%char, ds. eexists.
    split; [exact Href|]. split; [exact Hdec|].
    rewrite (sharp_s_in_bounds be bn Hbe Hbn). split; reflexivity.
Qed.

(** X8.  An accepted text decodes to a coordinate within the projected
    bounds exactly when its letter pair is an entry of the prefix table
    of [toGridRef]; the digits play no part. *)
Theorem decoded_in_bounds_iff_pair_in_table
  (g : jsstring) (l1 l2 : ascii) (ds : jsstring) (c : coordinates) :
  valid (_validateGridRef (trim g)) = true ->
  remove_spaces (toUpperCase (trim g)) = l1 :: l2 :: ds ->
  fromGridRef g = Populated c ->
  valid (_checkBounds c) = true <-> pair_in_table l1 l2 = true.
Proof.
  intros Hv Href Hc.
  destruct (decoded_bounds g Hv) as [k1 [k2 [es [c' [Href' [Hc' Hiff]]]]]].
  rewrite Href in Href'. injection Href' as <- <- <-.
  rewrite Hc in Hc'. apply Populated_inj in Hc'. subst c'. exact Hiff.
Qed.

Lemma decoded_in_bounds_iff_pair_in_table_witness :
  valid (_checkBounds (metres 900000 0)) = true
  <-> pair_in_table "T" "Z" = true.
Proof.
  apply (decoded_in_bounds_iff_pair_in_table (lit "TZ 00000 00000")
           "T" "Z" (lit "0000000000") (metres 900000 0)); reflexivity.
Defined.

(** X9.  Decoding, encoding and decoding again changes nothing: when an
    accepted text with an even number of digits decodes to a coordinate
    within the bounds, [toGridRef] of that coordinate carries the letters
    of the text in upper case and a text that decodes to the same
    coordinate. *)
Theorem decode_encode_decode
  (g : jsstring) (l1 l2 : ascii) (ds : jsstring) (i : nat)
  (c : coordinates) :
  valid (_validateGridRef (trim g)) = true ->
  remove_spaces (toUpperCase (trim g)) = l1 :: l2 :: ds ->
  length ds = (2 * i)%nat ->
  fromGridRef g = Populated c ->
  valid (_checkBounds c) = true ->
  exists r : GridReference,
    toGridRef c = Normal (Populated r)
    /\ letters r = Some [l1; l2]
    /\ fromGridRef (text r) = Populated c.
Proof.
  intros Hv Href Hl Hc Hb.
  destruct (even_reference g l1 l2 ds i Hv Href Hl) as [H1 [H2 [Hd Hi]]].
  rewrite (fromGridRef_valid g l1 l2 ds i Hv Href Hl (proj2 Hi)) in Hc.
  apply Populated_inj in Hc. subst c.
  destruct (digits_halves ds i Hd) as [Hd1 Hd2].
  assert (Hl1 : length (firstn i ds) = i) by (rewrite length_firstn; lia).
  assert (Hl2 : length (skipn i ds) = i) by (rewrite length_skipn; lia).
  destruct (padded_group _ i Hd1 Hl1 (proj2 Hi)) as [Hp1 [Hq1 Hv1]].
  destruct (padded_group _ i Hd2 Hl2 (proj2 Hi)) as [Hp2 [Hq2 Hv2]].
  rewrite <- Hv1, <- Hv2 in Hb |- *.
  destruct (toGridRef_of_decoded l1 l2 _ _ H1 H2 Hp1 Hp2 Hq1 Hq2 Hb)
    as [r [Hr [Ht [Hlet _]]]].
  exists r.
  split; [exact Hr|]. split; [exact Hlet|].
  rewrite Ht.
  rewrite (fromGridRef_written l1 l2 _ _ H1 H2 Hp1 Hp2
             ltac:(lia) ltac:(lia) 5 Hq1 Hq2).
  change (10 ^ (5 - Z.of_nat 5)) with 1. rewrite !Z.mul_1_r. reflexivity.
Qed.

Lemma decode_encode_decode_witness :
  exists r : GridReference,
    toGridRef (metres 337200 503600) = Normal (Populated r)
    /\ letters r = Some ["N"%char; "Y"%char]
    /\ fromGridRef (text r) = Populated (metres 337200 503600).
Proof.
  apply (decode_encode_decode (lit " ny372036") "N"%char "Y"%char
           (lit "372036") 3 (metres 337200 503600));
    reflexivity.
Defined.

Lemma corners_checked :
  forallb (fun p => forallb (corner_names_pair p) letter_pairs) letter_pairs
  = true.
Proof. vm_compute. reflexivity. Qed.

Lemma corner_inj (l1 l2 k1 k2 : ascii) :
  mem l1 firstLetters = true -> mem l2 gridLetters = true ->
  mem k1 firstLetters = true -> mem k2 gridLetters = true ->
  corner l1 l2 = corner k1 k2 -> l1 = k1 /\ l2 = k2.
Proof.
  intros H1 H2 H3 H4 Hc. pose proof corners_checked as H.
  rewrite forallb_forall in H.
  specialize (H (l1, l2) (in_letter_pairs l1 l2 H1 H2)).
  rewrite forallb_forall in H.
  specialize (H (k1, k2) (in_letter_pairs k1 k2 H3 H4)).
  unfold corner_names_pair in H. cbn [fst snd] in H.
  rewrite Hc, !Z.eqb_refl in H. cbn [andb] in H.
  apply andb_true_iff in H. destruct H as [Ha Hb].
  apply Ascii.eqb_eq in Ha, Hb. auto.
Qed.

Lemma digits_by_value (s t : jsstring) :
  digits s -> digits t -> length s = length t ->
  ToNumber s = ToNumber t -> s = t.
Proof.
  intros Hs Ht Hl Hv.
  rewrite <- (fixed_ToNumber s Hs), <- (fixed_ToNumber t Ht), Hl, Hv.
  reflexivity.
Qed.

Lemma root10_multiple_inj (base b b' : Z) :
  root10_multiple base b = root10_multiple base b' -> b = b'.
Proof.
  unfold root10_multiple.
  destruct (Z.eqb_spec b 0) as [-> | Hb];
    destruct (Z.eqb_spec b' 0) as [-> | Hb'];
    try discriminate; [reflexivity|].
  unfold inject_Z. intros H. congruence.
Qed.

(** X10.  [fromGridRef] never gives one coordinate to two different
    references of the same precision: two accepted texts that decode
    alike and whose upper-case forms hold the same number of digits have
    the same letters and digits. *)
Theorem fromGridRef_injective (g h : jsstring) :
  valid (_validateGridRef (trim g)) = true ->
  valid (_validateGridRef (trim h)) = true ->
  length (remove_spaces (toUpperCase (trim g)))
  = length (remove_spaces (toUpperCase (trim h))) ->
  fromGridRef g = fromGridRef h ->
  remove_spaces (toUpperCase (trim g)) = remove_spaces (toUpperCase (trim h)).
Proof.
  intros Hg Hh Hlen Heq.
  destruct (decoded_parts g Hg)
    as [l1 [l2 [ds [Rg [H1 [H2 [Hd [[i [re [rn [Hl [Hi [Ere [Ern [Hre [Hrn Dg]]]]]]]]]
         | [i [be [bn [Hl [Hi [E1 [E2 [Ebe [Ebn [Hbe [Hbn Dg]]]]]]]]]]]]]]]]]]];
    destruct (decoded_parts h Hh)
      as [k1 [k2 [es [Rh [K1 [K2 [Kd [[j [se [sn [Kl [Kj [Ese [Esn [Hse [Hsn Dh]]]]]]]]]
         | [j [ce [cn [Kl [Kj [F1 [F2 [Ece [Ecn [Hce [Hcn Dh]]]]]]]]]]]]]]]]]]];
    rewrite Rg, Rh in Hlen; cbn [length] in Hlen; try lia;
    assert (j = i) by lia; subst j.
  - rewrite Dg, Dh in Heq. apply Populated_inj, metres_inj in Heq.
    destruct Heq as [He Hn].
    destruct (corner_range l1 l2 H1 H2) as [[_ Hm1] [_ Hm2]].
    destruct (corner_range k1 k2 K1 K2) as [[_ Hm3] [_ Hm4]].
    apply Z.mod_divide in Hm1, Hm2, Hm3, Hm4; try lia.
    destruct Hm1 as [a1 Ha1]. destruct Hm2 as [a2 Ha2].
    destruct Hm3 as [a3 Ha3]. destruct Hm4 as [a4 Ha4].
    unfold corner in He, Hn. cbn [fst snd] in He, Hn.
    assert (Hc : corner l1 l2 = corner k1 k2)
      by (unfold corner; f_equal; lia).
    destruct (corner_inj l1 l2 k1 k2 H1 H2 K1 K2 Hc) as [-> ->].
    assert (Hm : 0 < 10 ^ (5 - Z.of_nat i)) by (apply Z.pow_pos_nonneg; lia).
    assert (Hv1 : ToNumber (firstn i ds) = ToNumber (firstn i es)) by nia.
    assert (Hv2 : ToNumber (skipn i ds) = ToNumber (skipn i es)) by nia.
    destruct (digits_halves ds i Hd) as [Dd1 Dd2].
    destruct (digits_halves es i Kd) as [De1 De2].
    rewrite Rg, Rh. f_equal. f_equal.
    rewrite <- (firstn_skipn i ds), <- (firstn_skipn i es). f_equal.
    + apply digits_by_value; auto. rewrite !length_firstn. lia.
    + apply digits_by_value; auto. rewrite !length_skipn. lia.
  - rewrite Dg, Dh in Heq. apply Populated_inj in Heq.
    assert (He : root10_multiple 200000 be = root10_multiple 200000 ce)
      by (unfold projected in Heq; congruence).
    assert (Hn : root10_multiple 100000 bn = root10_multiple 100000 cn)
      by (unfold projected in Heq; congruence).
    apply root10_multiple_inj in He, Hn.
    assert (Hm : 0 < 10 ^ (4 - Z.of_nat i)) by (apply Z.pow_pos_nonneg; lia).
    assert (Hv1 : ToNumber (firstn i ds) = ToNumber (firstn i es)) by nia.
    assert (Hv2 : ToNumber (skipn i ds) = ToNumber (skipn i es)) by nia.
    destruct (digits_halves ds i Hd) as [Dd1 Dd2].
    destruct (digits_halves es i Kd) as [De1 De2].
    rewrite Rg, Rh. subst l1 l2 k1 k2. f_equal. f_equal.
    rewrite <- (firstn_skipn i ds), <- (firstn_skipn i es). f_equal.
    + apply digits_by_value; auto. rewrite !length_firstn. lia.
    + apply digits_by_value; auto. rewrite !length_skipn. lia.
Qed.

Lemma fromGridRef_injective_witness :
  remove_spaces (toUpperCase (trim (lit "tg 514 131")))
  = remove_spaces (toUpperCase (trim (lit " TG514131"))).
Proof.
  apply (fromGridRef_injective (lit "tg 514 131") (lit " TG514131"));
    reflexivity.
Defined.

(** Without the condition on the digits the sharp s gives two texts for
    one coordinate. *)
Lemma sharp_s_shares_coordinate :
  fromGridRef (sharp_s :: lit "000") = Populated (metres 200000 100000)
  /\ fromGridRef (lit "SS00") = Populated (metres 200000 100000).
Proof. split; vm_compute; reflexivity. Qed.

(** X11.  Zeros appended to both digit groups of a reference whose
    groups are equally long refine its precision without moving it: the
    longer text decodes to the same coordinate. *)
Theorem fromGridRef_trailing_zeros
  (l1 l2 : ascii) (d1 d2 : jsstring) (i k : nat) :
  mem l1 firstLetters = true -> mem l2 gridLetters = true ->
  digits d1 -> digits d2 -> length d1 = i -> length d2 = i ->
  (1 <= i)%nat -> (i + k <= 5)%nat ->
  fromGridRef (written l1 l2 (d1 ++ repeat "0"%char k)
                             (d2 ++ repeat "0"%char k))
  = fromGridRef (written l1 l2 d1 d2).
Proof.
  intros H1 H2 Hd1 Hd2 Hl1 Hl2 Hi Hk.
  assert (Hz1 : digits (d1 ++ repeat "0"%char k))
    by (apply digits_app; split; [exact Hd1 | apply digits_zeros]).
  assert (Hz2 : digits (d2 ++ repeat "0"%char k))
    by (apply digits_app; split; [exact Hd2 | apply digits_zeros]).
  assert (Hn1 : length (d1 ++ repeat "0"%char k) = (i + k)%nat)
    by (rewrite length_app, repeat_length; lia).
  assert (Hn2 : length (d2 ++ repeat "0"%char k) = (i + k)%nat)
    by (rewrite length_app, repeat_length; lia).
  rewrite (fromGridRef_written l1 l2 _ _ H1 H2 Hz1 Hz2
             ltac:(lia) ltac:(lia) (i + k)%nat Hn1 Hn2).
  rewrite (fromGridRef_written l1 l2 d1 d2 H1 H2 Hd1 Hd2
             ltac:(lia) ltac:(lia) i Hl1 Hl2).
  rewrite !ToNumber_app, !ToNumber_zeros, !repeat_length, !Z.add_0_r.
  rewrite <- !Z.mul_assoc, <- !Z.pow_add_r by lia.
  replace (Z.of_nat k + (5 - Z.of_nat (i + k))) with (5 - Z.of_nat i) by lia.
  reflexivity.
Qed.

Lemma fromGridRef_trailing_zeros_witness :
  fromGridRef (written "N" "Y" (lit "37" ++ repeat "0"%char 3)
                               (lit "03" ++ repeat "0"%char 3))
  = fromGridRef (written "N" "Y" (lit "37") (lit "03")).
Proof.
  apply (fromGridRef_trailing_zeros "N" "Y" (lit "37") (lit "03") 2 3);
    try reflexivity; try lia; repeat constructor.
Defined.

(** ** The projector methods *)

Lemma toLatLng_declines (proj4 : jsstring -> jsstring -> number * number
                                 -> completion (number * number))
  (c : coordinates) (decimals : option fractionDigits) :
  toLatLng proj4 c decimals = Normal EmptyObject
  <-> valid (_checkBounds c) = false.
Proof.
  unfold toLatLng. destruct (valid (_checkBounds c)); cbn [negb].
  - split; [|discriminate].
    destruct (proj4 _ _ _); [|discriminate].
    destruct (toFixed_digits (default_decimals decimals 7)); discriminate.
  - split; reflexivity.
Qed.

(** X13.  [gridRefToLatLng] returns the empty object exactly when the
    text fails the format check or its letter pair is no entry of the
    prefix table (the decoded coordinate is then out of bounds); in every
    other case it is [toLatLng] of the decoded coordinate. *)
Theorem gridRefToLatLng_outcomes
  (proj4 : jsstring -> jsstring -> number * number
           -> completion (number * number))
  (g : jsstring) (decimals : option fractionDigits) :
  (gridRefToLatLng proj4 g decimals = Normal EmptyObject
   <-> valid (_validateGridRef (trim g)) = false
       \/ exists (l1 l2 : ascii) (ds : jsstring),
            remove_spaces (toUpperCase (trim g)) = l1 :: l2 :: ds
            /\ pair_in_table l1 l2 = false)
  /\ (forall c, fromGridRef g = Populated c ->
        gridRefToLatLng proj4 g decimals = toLatLng proj4 c decimals).
Proof.
  split.
  - unfold gridRefToLatLng.
    destruct (valid (_validateGridRef (trim g))) eqn:Hv.
    + destruct (decoded_bounds g Hv) as [l1 [l2 [ds [c [Href [Hdec Hiff]]]]]].
      rewrite Hdec, toLatLng_declines.
      split.
      * intros Hb. right. exists l1, l2, ds. split; [exact Href|].
        destruct (pair_in_table l1 l2); [|reflexivity].
        rewrite (proj2 Hiff eq_refl) in Hb. discriminate.
      * intros [Hf | [k1 [k2 [es [Href' Hp]]]]]; [discriminate|].
        rewrite Href in Href'. injection Href' as <- <- <-.
        match goal with |- ?b = false => destruct b eqn:Hb end;
          [|reflexivity].
        rewrite (proj1 Hiff eq_refl) in Hp. discriminate.
    + rewrite (fromGridRef_invalid g Hv). split; auto.
  - intros c Hc. unfold gridRefToLatLng. rewrite Hc. reflexivity.
Qed.

(** ** Inputs that pass the bounds check without being coordinates *)


(** X14.  When the northing of the input is absent or NaN, [toGridRef]
    raises a TypeError whenever the bounds check lets the input through,
    as it does for an object with [lat] and [lng] within the geographic
    bounds, for an object with neither pair, and for a NaN northing
    beside a valid easting. *)
Theorem toGridRef_without_northing (c : coordinates) :
  get (no c) = NaN ->
  toGridRef c
  = if valid (_checkBounds c) then Throw TypeError else Normal EmptyObject.
Proof.
  intros Hn. unfold toGridRef. rewrite Hn.
  unfold div, Math_floor, array_get.
  destruct (valid (_checkBounds c)); cbn [negb]; reflexivity.
Qed.

Lemma toGridRef_without_northing_witness :
  toGridRef (geographic (Num 54.4) (Num (-2.9))) = Throw TypeError.
Proof.
  apply (toGridRef_without_northing (geographic (Num 54.4) (Num (-2.9)))).
  reflexivity.
Defined.

Lemma row_of_northing (n : Q) :
  (0 <= n)%Q -> (n < 1300000)%Q ->
  exists row, array_get prefixes (Int (Qfloor n / 100000)) = Some row
              /\ 0 <= Qfloor n mod 100000 < 100000.
Proof.
  intros H0 H1.
  assert (Hf : 0 <= Qfloor n <= 1299999).
  { split.
    - change 0 with (Qfloor 0). apply Qfloor_resp_le. exact H0.
    - pose proof (Qfloor_le n) as Hle.
      assert (Hlt : (inject_Z (Qfloor n) < inject_Z 1300000)%Q)
        by (eapply Qle_lt_trans; eassumption).
      rewrite <- Zlt_Qlt in Hlt. lia. }
  assert (Hy : 0 <= Qfloor n / 100000 <= 12).
  { split; [apply Z.div_pos; lia|].
    apply Z.lt_succ_r, Z.div_lt_upper_bound; lia. }
  unfold array_get. destruct (Z.ltb_spec (Qfloor n / 100000) 0); [lia|].
  destruct (nth_error prefixes (Z.to_nat (Qfloor n / 100000))) as [row|] eqn:E.
  - exists row. split; [reflexivity | apply Z.mod_pos_bound; lia].
  - apply nth_error_None in E. cbn in E. lia.
Qed.

(** X15.  When the easting is absent or NaN, the northing lies in
    [0, 1300000) and the bounds check lets the input through, [toGridRef]
    returns a populated result without letters, whose eastings are
    "00NaN" and whose text begins "undefined 00NaN ". *)
Theorem toGridRef_without_easting (c : coordinates) (n : Q) :
  get (ea c) = NaN -> no c = Some (Num n) ->
  valid (_checkBounds c) = true ->
  (0 <= n)%Q -> (n < 1300000)%Q ->
  exists r,
    toGridRef c = Normal (Populated r)
    /\ letters r = None
    /\ eastings r = lit "00NaN"
    /\ northings r = fixed 5 (Qfloor n mod 100000)
    /\ text r = lit "undefined 00NaN " ++ northings r.
Proof.
  intros He Hn Hv H0 H1.
  destruct (row_of_northing n H0 H1) as [row [Hrow Hm]].
  unfold toGridRef. rewrite Hv, He, Hn. cbn [negb get].
  rewrite floor_of_quotient, Hrow.
  rewrite floor_of_remainder by exact H0.
  rewrite padStart_String_of by (try exact Hm; lia).
  eexists. split; [reflexivity|]. repeat split.
Qed.

Lemma toGridRef_without_easting_witness :
  exists r,
    toGridRef (projected NaN (Num 503695)) = Normal (Populated r)
    /\ letters r = None
    /\ eastings r = lit "00NaN"
    /\ northings r = fixed 5 (Qfloor 503695 mod 100000)
    /\ text r = lit "undefined 00NaN " ++ northings r.
Proof.
  apply (toGridRef_without_easting (projected NaN (Num 503695)) 503695);
    try reflexivity; unfold Qle; cbn; lia.
Defined.

(** ** Numeric inputs *)

(** X16.  On numeric easting and northing [toGridRef] raises nothing: it
    returns the empty object when the pair is outside the projected
    bounds and a populated result when it is within. *)
Theorem toGridRef_numeric_outcomes (e n : Q) :
  (toGridRef (projected (Num e) (Num n)) = Normal EmptyObject
   <-> ~ in_projected_bounds e n)
  /\ ((exists r, toGridRef (projected (Num e) (Num n)) = Normal (Populated r))
      <-> in_projected_bounds e n)
  /\ (forall err, toGridRef (projected (Num e) (Num n)) <> Throw err).
Proof.
  destruct (valid (_checkBounds (projected (Num e) (Num n)))) eqn:Hv.
  - pose proof (proj1 (checkBounds_projected e n) Hv) as Hb.
    destruct (toGridRef_in_bounds e n Hb) as [l1 [l2 [_ [_ [_ Hr]]]]].
    rewrite Hr. split; [|split].
    + split; [discriminate | intros H; contradiction].
    + split; [auto | intros _; eexists; reflexivity].
    + discriminate.
  - assert (Hb : ~ in_projected_bounds e n).
    { intros Hb. apply checkBounds_projected in Hb. congruence. }
    assert (Hr : toGridRef (projected (Num e) (Num n)) = Normal EmptyObject)
      by (unfold toGridRef; rewrite Hv; reflexivity).
    rewrite Hr. split; [|split].
    + split; auto.
    + split; [intros [r Hp]; discriminate | intros H; contradiction].
    + discriminate.
Qed.

(** ** The request handlers *)

Import Server.


Lemma fromGridRef_nonempty_text (s : jsstring) (c : coordinates) :
  fromGridRef s = Populated c -> is_empty s = false.
Proof.
  destruct s; [vm_compute; discriminate | reflexivity].
Qed.

(** The handler on a field that is a string is the branch for strings. *)
Lemma api_from_gridref_string (s : jsstring) :
  api_from_gridref (ReferenceField (string_field s)) = from_gridref (Some s).
Proof.
  unfold string_field, from_gridref. destruct (is_empty s); reflexivity.
Qed.


(** X19.  The two grid-reference handlers compose: for numeric fields
    within the projected bounds [/api/to-gridref] answers 200 with a grid
    reference whose text [/api/from-gridref] answers 200 with the floor
    of the easting and of the northing. *)
Theorem gridref_handlers_roundtrip (e n : Q) :
  in_projected_bounds e n ->
  exists r,
    to_gridref (Some (Num e)) (Some (Num n))
    = jsonResponse (GridReferencePayload r) 200
    /\ from_gridref (Some (text r))
       = jsonResponse (CoordinatesPayload (metres (Qfloor e) (Qfloor n))) 200.
Proof.
  intros Hb.
  destruct (encoded_and_decoded e n Hb) as [l1 [l2 [_ [_ [_ [Hr Hd]]]]]].
  eexists. unfold to_gridref, from_gridref. rewrite Hr.
  split; [reflexivity|]. cbn [text].
  rewrite (fromGridRef_nonempty_text _ _ Hd), Hd. reflexivity.
Qed.

Lemma gridref_handlers_roundtrip_witness :
  exists r,
    to_gridref (Some (Num 337297.86)) (Some (Num 503695.2))
    = jsonResponse (GridReferencePayload r) 200
    /\ from_gridref (Some (text r))
       = jsonResponse (CoordinatesPayload (metres 337297 503695)) 200.
Proof.
  apply (gridref_handlers_roundtrip 337297.86 503695.2).
  unfold in_projected_bounds, Qle. cbn. lia.
Defined.

(** ** The bounds check on rational fields *)

(** X20.  On rational field values [_checkBounds] reports a projected
    input [{ea, no}] valid exactly when [ea] lies in [0, 699999.9] and
    [no] in [0, 1299999.9], a geographic input [{lat, lng}] exactly when
    [lng] lies in [-8.74, 1.96] and [lat] in [49.84, 60.9], and an input
    that presents neither pair of fields valid; so [toGridRef] with
    easting 700000 and [fromLatLng] with latitude 61.0 return the empty
    object, whatever the other field. *)
Theorem checkBounds_rectangles :
  (forall e n : Q,
     valid (_checkBounds (projected (Num e) (Num n))) = true
     <-> in_projected_bounds e n)
  /\ (forall a b : Q,
        valid (_checkBounds (geographic (Num a) (Num b))) = true
        <-> in_geographic_bounds a b)
  /\ (forall c : coordinates,
        hasOwnProperty (ea c) && hasOwnProperty (no c) = false ->
        hasOwnProperty (lat c) && hasOwnProperty (lng c) = false ->
        valid (_checkBounds c) = true)
  /\ (forall n : number,
        toGridRef (projected (Num 700000) n) = Normal EmptyObject)
  /\ (forall proj4 (b : number) (decimals : option fractionDigits),
        fromLatLng proj4 (geographic (Num 61.0) b) decimals
        = Normal EmptyObject).
Proof.
  split; [exact checkBounds_projected|].
  split; [exact checkBounds_geographic|].
  split; [|split].
  - intros c H1 H2. unfold _checkBounds. rewrite H1, H2. reflexivity.
  - intros n. unfold toGridRef, _checkBounds, projected.
    cbn [valid ea no hasOwnProperty get andb maxBounds bounds_projected
         fst snd].
    replace (gt (Num 700000) (Num 699999.9)) with true by reflexivity.
    rewrite orb_true_r. reflexivity.
  - intros proj4 b decimals. unfold fromLatLng, _checkBounds, geographic.
    cbn [valid ea no lat lng hasOwnProperty get andb maxBounds
         bounds_geographic fst snd].
    replace (gt (Num 61.0) (Num 60.9)) with true by reflexivity.
    rewrite !orb_true_r. reflexivity.
Qed.

(** X21.  For a rational easting and northing that pass the bounds check
    the tile indices [x = floor(easting / 100000)] and
    [y = floor(northing / 100000)] lie in [0, 6] and [0, 12], the table
    has an entry there, and [toGridRef] returns a populated result whose
    letters are that entry. *)
Theorem toGridRef_lookup_in_table (e n : Q) :
  valid (_checkBounds (projected (Num e) (Num n))) = true ->
  let x := Qfloor (e / 100000) in
  let y := Qfloor (n / 100000) in
  (0 <= x <= 6 /\ 0 <= y <= 12)
  /\ exists (p : jsstring) (r : GridReference),
       tile (Z.to_nat x) (Z.to_nat y) = Some p
       /\ toGridRef (projected (Num e) (Num n)) = Normal (Populated r)
       /\ letters r = Some p.
Proof.
  intros Hv x y. subst x y. rewrite !Qfloor_div_100000.
  apply checkBounds_projected in Hv.
  destruct (toGridRef_in_bounds e n Hv) as [l1 [l2 [Ht [Hxy [_ Hr]]]]].
  split; [exact Hxy|]. exists [l1; l2]. eexists.
  split; [exact Ht|]. split; [exact Hr|]. reflexivity.
Qed.

Lemma toGridRef_lookup_in_table_witness :
  valid (_checkBounds (projected (Num 699999.9) (Num 1299999.9))) = true
  /\ (0 <= Qfloor (699999.9 / 100000) <= 6
      /\ 0 <= Qfloor (1299999.9 / 100000) <= 12)
  /\ exists (p : jsstring) (r : GridReference),
       tile (Z.to_nat (Qfloor (699999.9 / 100000)))
            (Z.to_nat (Qfloor (1299999.9 / 100000))) = Some p
       /\ toGridRef (projected (Num 699999.9) (Num 1299999.9))
          = Normal (Populated r)
       /\ letters r = Some p.
Proof.
  split; [reflexivity|].
  apply (toGridRef_lookup_in_table 699999.9 1299999.9). reflexivity.
Defined.

(** ** References that begin with the sharp s *)



